(** * The GC scheduler of the Kotlin/Native runtime

    A shallow embedding of [gc/common/cpp/GCScheduler.hpp] and
    [GCScheduler.cpp]: the tunable configuration, the per-thread counters
    ([GCScheduler::ThreadData]), the decision state ([GCScheduler::GCData])
    and the composition root ([GCScheduler]), followed by the properties of
    the scheduling decisions.

    Conventions.
    - [size_t] and [uint64_t] values are integers of [Z]; both are taken
      64 bits wide and every addition or subtraction the code performs on
      them is followed by its reduction modulo [2^64].
    - A [std::function<void()>] is [None] when empty and [Some f] when it
      holds the callable named [f]; calling it is recorded in the list of
      calls the scheduler made to its collaborators.
    - Methods run in a state-and-failure monad over [World], the objects
      shared by all threads.  A [ThreadData] belongs to one thread and is
      passed and returned explicitly. *)

From Stdlib Require Import String ZArith List Bool Lia.
Import ListNotations.
Local Open Scope Z_scope.

(** ** Machine integers *)

Definition SIZE_MODULUS : Z := 2 ^ 64.
Definition SIZE_MAX : Z := SIZE_MODULUS - 1.
Definition UINT64_MODULUS : Z := 2 ^ 64.

(** Result of a [size_t] computation whose exact value is [z]. *)
Definition wrap_size_t (z : Z) : Z := z mod SIZE_MODULUS.

(** Result of a [uint64_t] computation whose exact value is [z]. *)
Definition wrap_uint64_t (z : Z) : Z := z mod UINT64_MODULUS.

Definition is_size_t (z : Z) : Prop := 0 <= z < SIZE_MODULUS.
Definition is_uint64_t (z : Z) : Prop := 0 <= z < UINT64_MODULUS.

Definition is_size_tb (z : Z) : bool := (0 <=? z) && (z <? SIZE_MODULUS).

(** ** Configuration *)

Record GCSchedulerConfig : Type := mkGCSchedulerConfig {
  threshold : Z;
  allocationThresholdBytes : Z;
  cooldownThresholdNs : Z;
  autoTune : bool
}.

(** The member initialisers of [GCSchedulerConfig]. *)
Definition GCSchedulerConfig_defaults : GCSchedulerConfig :=
  {| threshold := 100000;
     allocationThresholdBytes := 10 * 1024 * 1024;
     cooldownThresholdNs := 200 * 1000 * 1000;
     autoTune := false |}.

(** [GCSchedulerConfig::GCSchedulerConfig()].  [gcAggressive] stands for
    [compiler::gcAggressive()], a constant of the build. *)
Definition GCSchedulerConfig_new (gcAggressive : bool) : GCSchedulerConfig :=
  if gcAggressive then
    {| threshold := 1000;
       allocationThresholdBytes := 10000;
       cooldownThresholdNs := 0;
       autoTune := autoTune GCSchedulerConfig_defaults |}
  else GCSchedulerConfig_defaults.

(** ** Callables and the calls made to them *)

(** A [std::function<void()>]: empty, or holding the callable of that name. *)
Definition function_void : Type := option nat.

Definition nonempty (f : function_void) : bool :=
  match f with Some _ => true | None => false end.

(** Calls that leave the scheduler. *)
Inductive Call : Type :=
| CallScheduleGC (callee : nat)
| CallOnSafePoint (allocatedBytes safePointsCounter : Z).

(** ** The shared objects *)

Module GCData.
(** The fields of [GCScheduler::GCData] that it owns; [config_] and
    [currentTimeCallbackNs_] refer to the [World] below. *)
Record t : Type := mk {
  timeOfLastGcNs_ : Z;
  scheduleGC_ : function_void
}.
End GCData.

Record World : Type := mkWorld {
  config : GCSchedulerConfig;     (* GCScheduler::config_ *)
  gcData : GCData.t;              (* GCScheduler::gcData_ *)
  scheduleGC_ : function_void;    (* GCScheduler::scheduleGC_ *)
  timeNanos : Z;                  (* what the time source answers when asked *)
  calls : list Call               (* calls made so far, the latest first *)
}.

Definition set_config (c : GCSchedulerConfig) (w : World) : World :=
  mkWorld c (gcData w) (scheduleGC_ w) (timeNanos w) (calls w).

Definition set_gcData (g : GCData.t) (w : World) : World :=
  mkWorld (config w) g (scheduleGC_ w) (timeNanos w) (calls w).

Definition set_scheduleGC_ (f : function_void) (w : World) : World :=
  mkWorld (config w) (gcData w) f (timeNanos w) (calls w).

Definition set_timeNanos (now : Z) (w : World) : World :=
  mkWorld (config w) (gcData w) (scheduleGC_ w) now (calls w).

Definition set_calls (l : list Call) (w : World) : World :=
  mkWorld (config w) (gcData w) (scheduleGC_ w) (timeNanos w) l.

Definition record_call (c : Call) (w : World) : World :=
  set_calls (c :: calls w) w.

(** ** The monad of the methods *)

Inductive Result (A : Type) : Type :=
| Ok (a : A) (w : World)
| Fatal (message : string).

Arguments Ok {A} a w.
Arguments Fatal {A} message.

Definition M (A : Type) : Type := World -> Result A.

Definition ret {A : Type} (a : A) : M A := fun w => Ok a w.

Definition bind {A B : Type} (m : M A) (k : A -> M B) : M B :=
  fun w => match m w with
           | Ok a w' => k a w'
           | Fatal message => Fatal message
           end.

Notation "x <- m ;; k" := (bind m (fun x => k))
  (at level 61, m at next level, right associativity).
Notation "m ;; k" := (bind m (fun _ => k))
  (at level 61, right associativity).

(** Modelled from the spec: the [RuntimeAssert] macro of [KAssert.h], which is
    not among the sources.  The spec makes a violated assertion fatal: it
    terminates the process with the given message. *)
Definition RuntimeAssert (condition : bool) (format : string) : M unit :=
  fun w => if condition then Ok tt w else Fatal format.

(** Calling a [std::function<void()>].  An empty one throws
    [std::bad_function_call]; every caller here is [noexcept], so the
    process terminates. *)
Definition call_function_void (f : function_void) : M unit :=
  fun w => match f with
           | Some callee => Ok tt (record_call (CallScheduleGC callee) w)
           | None => Fatal "bad_function_call"%string
           end.

(** ** [GCScheduler::GCData] *)

(** [currentTimeCallbackNs_()]. *)
Definition currentTimeCallbackNs_ : M Z := fun w => Ok (timeNanos w) w.

(** [GCData::GCData(config, currentTimeCallbackNs)]: the value of the new
    object when the time source answers [now]. *)
Definition GCData_new (now : Z) : GCData.t :=
  {| GCData.timeOfLastGcNs_ := now; GCData.scheduleGC_ := None |}.

(** The value of [currentTimeCallbackNs_() - timeOfLastGcNs_]. *)
Definition elapsedNs (w : World) : Z :=
  wrap_uint64_t (timeNanos w - GCData.timeOfLastGcNs_ (gcData w)).

(** The condition of the [if] in [GCData::OnSafePoint].  Asking the time
    source leaves the world as it is, so the condition is a function of the
    world, whether or not [||] gets to its second operand. *)
Definition shouldSchedule (allocatedBytes : Z) (w : World) : bool :=
  (allocationThresholdBytes (config w) <? allocatedBytes)
  || (cooldownThresholdNs (config w) <=? elapsedNs w).

(** [GCData::OnSafePoint]. *)
Definition GCData_OnSafePoint (allocatedBytes safePointsCounter : Z) : M unit :=
  fun w =>
    if shouldSchedule allocatedBytes w then
      (RuntimeAssert (nonempty (GCData.scheduleGC_ (gcData w)))
                     "scheduleGC_ cannot be empty"%string ;;
       call_function_void (GCData.scheduleGC_ (gcData w))) w
    else Ok tt w.

(** [GCData::OnPerformFullGC]. *)
Definition GCData_OnPerformFullGC : M unit :=
  now <- currentTimeCallbackNs_ ;;
  fun w => Ok tt (set_gcData {| GCData.timeOfLastGcNs_ := now;
                                GCData.scheduleGC_ := GCData.scheduleGC_ (gcData w) |} w).

(** [GCData::SetScheduleGC]. *)
Definition GCData_SetScheduleGC (scheduleGC : function_void) : M unit :=
  fun w => Ok tt (set_gcData {| GCData.timeOfLastGcNs_ := GCData.timeOfLastGcNs_ (gcData w);
                                GCData.scheduleGC_ := scheduleGC |} w).

(** ** [GCScheduler::ThreadData] *)

Module ThreadData.

Definition OnSafePointCallback : Type := Z -> Z -> M unit.

Definition kFunctionEpilogueWeight : Z := 1.
Definition kLoopBodyWeight : Z := 1.
Definition kExceptionUnwindWeight : Z := 1.

(** [config_] refers to the [config] of the [World]. *)
Record t : Type := mk {
  onSafePoint_ : OnSafePointCallback;
  allocatedBytes_ : Z;
  allocatedBytesThreshold_ : Z;
  safePointsCounter_ : Z;
  safePointsCounterThreshold_ : Z
}.

Definition ClearCountersAndUpdateThresholds (this : t) : M t :=
  fun w =>
    Ok {| onSafePoint_ := onSafePoint_ this;
          allocatedBytes_ := 0;
          safePointsCounter_ := 0;
          allocatedBytesThreshold_ := allocationThresholdBytes (config w);
          safePointsCounterThreshold_ := threshold (config w) |} w.

Definition OnSafePointSlowPath (this : t) : M t :=
  onSafePoint_ this (allocatedBytes_ this) (safePointsCounter_ this) ;;
  ClearCountersAndUpdateThresholds this.

(** [ThreadData::ThreadData(config, onSafePoint)]. *)
Definition new (onSafePoint : OnSafePointCallback) : M t :=
  ClearCountersAndUpdateThresholds
    {| onSafePoint_ := onSafePoint;
       allocatedBytes_ := 0;
       allocatedBytesThreshold_ := 0;
       safePointsCounter_ := 0;
       safePointsCounterThreshold_ := 0 |}.

Definition add_safePointsCounter_ (weight : Z) (this : t) : t :=
  {| onSafePoint_ := onSafePoint_ this;
     allocatedBytes_ := allocatedBytes_ this;
     allocatedBytesThreshold_ := allocatedBytesThreshold_ this;
     safePointsCounter_ := wrap_size_t (safePointsCounter_ this + weight);
     safePointsCounterThreshold_ := safePointsCounterThreshold_ this |}.

Definition add_allocatedBytes_ (size : Z) (this : t) : t :=
  {| onSafePoint_ := onSafePoint_ this;
     allocatedBytes_ := wrap_size_t (allocatedBytes_ this + size);
     allocatedBytesThreshold_ := allocatedBytesThreshold_ this;
     safePointsCounter_ := safePointsCounter_ this;
     safePointsCounterThreshold_ := safePointsCounterThreshold_ this |}.

Section Build.
(** [compiler::gcAggressive()]. *)
Variable gcAggressive : bool.

Definition OnSafePointRegular (weight : Z) (this : t) : M t :=
  if gcAggressive then
    let this := add_safePointsCounter_ weight this in
    if safePointsCounter_ this <? safePointsCounterThreshold_ this then
      ret this
    else
      OnSafePointSlowPath this
  else ret this.
End Build.

Definition OnSafePointAllocation (size : Z) (this : t) : M t :=
  let this := add_allocatedBytes_ size this in
  if allocatedBytes_ this <? allocatedBytesThreshold_ this then
    ret this
  else
    OnSafePointSlowPath this.

Definition OnStoppedForGC (this : t) : M t :=
  ClearCountersAndUpdateThresholds this.

End ThreadData.

(** ** [GCScheduler] *)

Module GCScheduler.

(** [GCScheduler::GCScheduler()]: the shared objects right after
    construction, when the time source answers [now]. *)
Definition new (gcAggressive : bool) (now : Z) : World :=
  {| config := GCSchedulerConfig_new gcAggressive;
     gcData := GCData_new now;
     scheduleGC_ := None;
     timeNanos := now;
     calls := [] |}.

(** [GCScheduler::NewThreadData]: the callback forwards to
    [gcData().OnSafePoint]. *)
Definition NewThreadData : M ThreadData.t :=
  ThreadData.new
    (fun allocatedBytes safePointsCounter =>
       GCData_OnSafePoint allocatedBytes safePointsCounter).

(** [GCScheduler::SetScheduleGC]. *)
Definition SetScheduleGC (scheduleGC : function_void) : M unit :=
  RuntimeAssert (nonempty scheduleGC) "scheduleGC cannot be empty"%string ;;
  (fun w => RuntimeAssert (negb (nonempty (scheduleGC_ w)))
                          "scheduleGC must not have been set"%string w) ;;
  (fun w => Ok tt (set_scheduleGC_ scheduleGC w)) ;;
  (fun w => GCData_SetScheduleGC (scheduleGC_ w) w).

End GCScheduler.

(** ** Driving one thread

    What a test does with a [ThreadData]: bind it to a callback that notes the
    reported values, then issue calls and look at what was reported. *)

(** A callback for [onSafePoint_] that only notes the report. *)
Definition recordOnSafePoint : ThreadData.OnSafePointCallback :=
  fun allocatedBytes safePointsCounter w =>
    Ok tt (record_call (CallOnSafePoint allocatedBytes safePointsCounter) w).

Inductive Step : Type :=
| Regular (weight : Z)      (* OnSafePointRegular(weight) *)
| Allocation (size : Z)     (* OnSafePointAllocation(size) *)
| StoppedForGC.             (* OnStoppedForGC() *)

(** Runs [m] and also returns the calls it made, the latest first. *)
Definition made_by {A : Type} (m : M A) : M (A * list Call) :=
  fun w => match m w with
           | Ok a w' =>
               Ok (a, firstn (length (calls w') - length (calls w))%nat (calls w')) w'
           | Fatal message => Fatal message
           end.

Section Run.
Variable gcAggressive : bool.

Definition step (s : Step) (this : ThreadData.t) : M ThreadData.t :=
  match s with
  | Regular weight => ThreadData.OnSafePointRegular gcAggressive weight this
  | Allocation size => ThreadData.OnSafePointAllocation size this
  | StoppedForGC => ThreadData.OnStoppedForGC this
  end.

(** The calls made by each step, and the counters after it. *)
Fixpoint run (steps : list Step) (this : ThreadData.t)
  : M (list (list Call * ThreadData.t)) :=
  match steps with
  | [] => ret []
  | s :: rest =>
      r <- made_by (step s this) ;;
      rs <- run rest (fst r) ;;
      ret ((snd r, fst r) :: rs)
  end.
End Run.

(** The calls of each step. *)
Definition calls_of (results : list (list Call * ThreadData.t)) : list (list Call) :=
  map fst results.

(** The calls of each step with the weighted counter it leaves. *)
Definition calls_and_counter_of (results : list (list Call * ThreadData.t))
  : list (list Call * Z) :=
  map (fun r => (fst r, ThreadData.safePointsCounter_ (snd r))) results.

(** ** The per-thread counter as the specification words it

    Exact integers, no machine arithmetic.  [snapshot] is the cached
    threshold, [live] the value of the configuration, [bytes] and [weighted]
    the two running totals since the last reset. *)

(** RecordAllocation: add [size]; when the total reaches or exceeds the cached
    threshold, report both totals, zero them and refresh the snapshot. *)
Fixpoint spec_RecordAllocation (live snapshot bytes weighted : Z) (sizes : list Z)
  : list (list Call) :=
  match sizes with
  | [] => []
  | size :: rest =>
      let total := bytes + size in
      if snapshot <=? total
      then [CallOnSafePoint total weighted] :: spec_RecordAllocation live live 0 0 rest
      else [] :: spec_RecordAllocation live snapshot total weighted rest
  end.

(** The running byte totals of [spec_RecordAllocation] are all [size_t] values. *)
Fixpoint allocations_fit (live snapshot bytes : Z) (sizes : list Z) : bool :=
  match sizes with
  | [] => true
  | size :: rest =>
      let total := bytes + size in
      is_size_tb total &&
      (if snapshot <=? total
       then allocations_fit live live 0 rest
       else allocations_fit live snapshot total rest)
  end.

(** RecordSafepoint with counting enabled: add [weight]; when the total
    reaches or exceeds the cached threshold, report both totals, zero them and
    refresh the snapshot.  Each entry also gives the weighted total left. *)
Fixpoint spec_RecordSafepoint (live snapshot bytes weighted : Z) (weights : list Z)
  : list (list Call * Z) :=
  match weights with
  | [] => []
  | weight :: rest =>
      let total := weighted + weight in
      if snapshot <=? total
      then ([CallOnSafePoint bytes total], 0) :: spec_RecordSafepoint live live 0 0 rest
      else ([], total) :: spec_RecordSafepoint live snapshot bytes total rest
  end.

(** The running weighted totals of [spec_RecordSafepoint] are all [size_t] values. *)
Fixpoint safepoints_fit (live snapshot weighted : Z) (weights : list Z) : bool :=
  match weights with
  | [] => true
  | weight :: rest =>
      let total := weighted + weight in
      is_size_tb total &&
      (if snapshot <=? total
       then safepoints_fit live live 0 rest
       else safepoints_fit live snapshot total rest)
  end.

(** ** Outcomes *)

(** The process was terminated. *)
Definition is_fatal {A : Type} (r : Result A) : Prop :=
  match r with Fatal _ => True | Ok _ _ => False end.

(** The [ThreadData] that [ClearCountersAndUpdateThresholds] leaves. *)
Definition cleared (this : ThreadData.t) (w : World) : ThreadData.t :=
  {| ThreadData.onSafePoint_ := ThreadData.onSafePoint_ this;
     ThreadData.allocatedBytes_ := 0;
     ThreadData.safePointsCounter_ := 0;
     ThreadData.allocatedBytesThreshold_ := allocationThresholdBytes (config w);
     ThreadData.safePointsCounterThreshold_ := threshold (config w) |}.

(** ** Scenarios of the specification *)

Definition MiB : Z := 1024 * 1024.
Definition msNs : Z := 1000 * 1000.

(** The configuration of Scenario C put over [c]: a byte threshold that
    cannot be exceeded and a cooldown of 200 ms. *)
Definition scenarioC_config (c : GCSchedulerConfig) : GCSchedulerConfig :=
  {| threshold := threshold c;
     allocationThresholdBytes := SIZE_MAX;
     cooldownThresholdNs := 200 * msNs;
     autoTune := autoTune c |}.

(** A world in which the callback [7] is bound, the last collection was at
    1000 ns and the clock reads [now]. *)
Definition example_world (now : Z) : World :=
  {| config := GCSchedulerConfig_defaults;
     gcData := {| GCData.timeOfLastGcNs_ := 1000; GCData.scheduleGC_ := Some 7%nat |};
     scheduleGC_ := Some 7%nat;
     timeNanos := now;
     calls := [] |}.

(** ** Counters between resets *)

(** A counter is a [size_t] value that is zero or still below its snapshot. *)
Definition counter_below (counter snapshot : Z) : Prop :=
  is_size_t counter /\ (counter = 0 \/ counter < snapshot).

Definition counters_below (this : ThreadData.t) : Prop :=
  counter_below (ThreadData.allocatedBytes_ this)
                (ThreadData.allocatedBytesThreshold_ this)
  /\ counter_below (ThreadData.safePointsCounter_ this)
                   (ThreadData.safePointsCounterThreshold_ this).

(** The calls of each step with both counters it leaves. *)
Definition observations_of (results : list (list Call * ThreadData.t))
  : list (list Call * Z * Z) :=
  map (fun r => (fst r, ThreadData.allocatedBytes_ (snd r),
                 ThreadData.safePointsCounter_ (snd r))) results.

(** Calls of all three kinds on one thread, in exact integers: either counter
    reaching its snapshot reports both totals, zeroes both and takes both
    snapshots again from the configuration [live]. *)
Fixpoint spec_steps (gcAggressive : bool) (live : GCSchedulerConfig)
  (snapshotBytes snapshotWeight bytes weighted : Z) (steps : list Step)
  : list (list Call * Z * Z) :=
  let restart :=
    spec_steps gcAggressive live (allocationThresholdBytes live) (threshold live) 0 0 in
  match steps with
  | [] => []
  | Regular weight :: rest =>
      if gcAggressive then
        let total := weighted + weight in
        if snapshotWeight <=? total
        then ([CallOnSafePoint bytes total], 0, 0) :: restart rest
        else ([], bytes, total)
             :: spec_steps gcAggressive live snapshotBytes snapshotWeight bytes total rest
      else ([], bytes, weighted)
           :: spec_steps gcAggressive live snapshotBytes snapshotWeight bytes weighted rest
  | Allocation size :: rest =>
      let total := bytes + size in
      if snapshotBytes <=? total
      then ([CallOnSafePoint total weighted], 0, 0) :: restart rest
      else ([], total, weighted)
           :: spec_steps gcAggressive live snapshotBytes snapshotWeight total weighted rest
  | StoppedForGC :: rest => ([], 0, 0) :: restart rest
  end.

(** The running totals of [spec_steps] are all [size_t] values. *)
Fixpoint steps_fit (gcAggressive : bool) (live : GCSchedulerConfig)
  (snapshotBytes snapshotWeight bytes weighted : Z) (steps : list Step) : bool :=
  let restart :=
    steps_fit gcAggressive live (allocationThresholdBytes live) (threshold live) 0 0 in
  match steps with
  | [] => true
  | Regular weight :: rest =>
      if gcAggressive then
        let total := weighted + weight in
        is_size_tb total &&
        (if snapshotWeight <=? total
         then restart rest
         else steps_fit gcAggressive live snapshotBytes snapshotWeight bytes total rest)
      else steps_fit gcAggressive live snapshotBytes snapshotWeight bytes weighted rest
  | Allocation size :: rest =>
      let total := bytes + size in
      is_size_tb total &&
      (if snapshotBytes <=? total
       then restart rest
       else steps_fit gcAggressive live snapshotBytes snapshotWeight total weighted rest)
  | StoppedForGC :: rest => restart rest
  end.

(** ** Driving the scheduler

    What the runtime does with one [GCScheduler] and a thread of it: bind the
    callback, let the thread pass safepoints, report to the decision state
    directly, complete collections; meanwhile time passes and the
    configuration is written. *)

Inductive SystemOp : Type :=
| BindScheduleGC (scheduleGC : function_void)   (* GCScheduler::SetScheduleGC *)
| ThreadStep (s : Step)                         (* a call on the ThreadData *)
| DirectReport (allocatedBytes safePointsCounter : Z) (* gcData().OnSafePoint *)
| PerformFullGC                                 (* gcData().OnPerformFullGC *)
| TimeSource (now : Z)                          (* the time source now answers [now] *)
| ConfigStore (c : GCSchedulerConfig).          (* stores to config() *)

Section RunSystem.
Variable gcAggressive : bool.

Definition system_op (op : SystemOp) (this : ThreadData.t) : M ThreadData.t :=
  match op with
  | BindScheduleGC scheduleGC => GCScheduler.SetScheduleGC scheduleGC ;; ret this
  | ThreadStep s => step gcAggressive s this
  | DirectReport allocatedBytes safePointsCounter =>
      GCData_OnSafePoint allocatedBytes safePointsCounter ;; ret this
  | PerformFullGC => GCData_OnPerformFullGC ;; ret this
  | TimeSource now => fun w => Ok this (set_timeNanos now w)
  | ConfigStore c => fun w => Ok this (set_config c w)
  end.

Fixpoint run_system (ops : list SystemOp) (this : ThreadData.t) : M ThreadData.t :=
  match ops with
  | [] => ret this
  | op :: rest => this' <- system_op op this ;; run_system rest this'
  end.
End RunSystem.

(** The time source never answers less than it did before, starting at [now]. *)
Fixpoint time_never_goes_back (now : Z) (ops : list SystemOp) : bool :=
  match ops with
  | [] => true
  | TimeSource later :: rest => (now <=? later) && time_never_goes_back later rest
  | _ :: rest => time_never_goes_back now rest
  end.

(** Every call recorded is a call of the callback [f]. *)
Definition only_calls (f : function_void) (l : list Call) : Prop :=
  Forall (fun c => exists callee, f = Some callee /\ c = CallScheduleGC callee) l.

(** The scheduler and its decision state hold the same callback, and every
    call recorded is a call of it. *)
Definition callback_discipline (w : World) : Prop :=
  GCData.scheduleGC_ (gcData w) = scheduleGC_ w
  /\ only_calls (scheduleGC_ w) (calls w).

(** * Properties *)

(** ** Machine arithmetic *)

Lemma wrap_size_t_small (z : Z) : is_size_t z -> wrap_size_t z = z.
Proof. unfold is_size_t, wrap_size_t. intros H. now apply Z.mod_small. Qed.

Lemma wrap_uint64_t_small (z : Z) : is_uint64_t z -> wrap_uint64_t z = z.
Proof. unfold is_uint64_t, wrap_uint64_t. intros H. now apply Z.mod_small. Qed.

Lemma is_size_tb_spec (z : Z) : is_size_tb z = true <-> is_size_t z.
Proof.
  unfold is_size_tb, is_size_t.
  rewrite andb_true_iff, Z.leb_le, Z.ltb_lt. tauto.
Qed.

(** With a time source that never goes back, the elapsed time is the plain
    difference of the two readings. *)
Lemma elapsedNs_monotonic (w : World) :
  is_uint64_t (GCData.timeOfLastGcNs_ (gcData w)) ->
  is_uint64_t (timeNanos w) ->
  GCData.timeOfLastGcNs_ (gcData w) <= timeNanos w ->
  elapsedNs w = timeNanos w - GCData.timeOfLastGcNs_ (gcData w).
Proof.
  unfold elapsedNs, is_uint64_t. intros Hl Hn Hle.
  apply wrap_uint64_t_small. unfold is_uint64_t. lia.
Qed.

(** ** The calls made by a method *)

Lemma made_by_none {A : Type} (m : M A) (a : A) (w w' : World) :
  m w = Ok a w' -> calls w' = calls w -> made_by m w = Ok (a, []) w'.
Proof.
  intros Hm Hc. unfold made_by. rewrite Hm, Hc, Nat.sub_diag. reflexivity.
Qed.

Lemma made_by_one {A : Type} (m : M A) (a : A) (c : Call) (w w' : World) :
  m w = Ok a w' -> calls w' = c :: calls w -> made_by m w = Ok (a, [c]) w'.
Proof.
  intros Hm Hc. unfold made_by. rewrite Hm, Hc. cbn [List.length].
  replace (S (List.length (calls w)) - List.length (calls w))%nat with 1%nat by lia.
  reflexivity.
Qed.

Lemma made_by_fatal {A : Type} (m : M A) (message : string) (w : World) :
  m w = Fatal message -> made_by m w = Fatal message.
Proof. intros Hm. unfold made_by. now rewrite Hm. Qed.

(** ** The decision state *)

Lemma GCData_OnSafePoint_bound (f : nat) (allocatedBytes safePointsCounter : Z) (w : World) :
  GCData.scheduleGC_ (gcData w) = Some f ->
  GCData_OnSafePoint allocatedBytes safePointsCounter w =
  Ok tt (if shouldSchedule allocatedBytes w
         then record_call (CallScheduleGC f) w else w).
Proof.
  intros Hf. unfold GCData_OnSafePoint.
  destruct (shouldSchedule allocatedBytes w); [| reflexivity].
  rewrite Hf. reflexivity.
Qed.

Lemma GCData_OnSafePoint_made (f : nat) (allocatedBytes safePointsCounter : Z) (w : World) :
  GCData.scheduleGC_ (gcData w) = Some f ->
  made_by (GCData_OnSafePoint allocatedBytes safePointsCounter) w =
  Ok (tt, if shouldSchedule allocatedBytes w then [CallScheduleGC f] else [])
     (if shouldSchedule allocatedBytes w
      then record_call (CallScheduleGC f) w else w).
Proof.
  intros Hf. pose proof (GCData_OnSafePoint_bound f allocatedBytes safePointsCounter w Hf) as H.
  destruct (shouldSchedule allocatedBytes w).
  - now apply made_by_one.
  - now apply made_by_none.
Qed.

(** C1: with a trigger callback [f] bound, [GCData::OnSafePoint] calls it
    if and only if the reported bytes are strictly above the live
    allocation threshold or the elapsed time has reached the live cooldown;
    the call is made once and nothing else is called.  The elapsed time is
    what the 64-bit subtraction gives, which is the current time minus the
    time of the last collection whenever the time source has not gone back. *)
Theorem GCData_OnSafePoint_trigger_iff :
  forall (f : nat) (reportedAllocatedBytes reportedWeightedCount : Z) (w : World),
    GCData.scheduleGC_ (gcData w) = Some f ->
    (let fire :=
       (allocationThresholdBytes (config w) <? reportedAllocatedBytes)
       || (cooldownThresholdNs (config w) <=? elapsedNs w) in
     made_by (GCData_OnSafePoint reportedAllocatedBytes reportedWeightedCount) w =
       Ok (tt, if fire then [CallScheduleGC f] else [])
          (if fire then record_call (CallScheduleGC f) w else w))
    /\ (is_uint64_t (GCData.timeOfLastGcNs_ (gcData w)) ->
        is_uint64_t (timeNanos w) ->
        GCData.timeOfLastGcNs_ (gcData w) <= timeNanos w ->
        let fire :=
          (allocationThresholdBytes (config w) <? reportedAllocatedBytes)
          || (cooldownThresholdNs (config w)
              <=? timeNanos w - GCData.timeOfLastGcNs_ (gcData w)) in
        made_by (GCData_OnSafePoint reportedAllocatedBytes reportedWeightedCount) w =
          Ok (tt, if fire then [CallScheduleGC f] else [])
             (if fire then record_call (CallScheduleGC f) w else w)).
Proof.
  intros f b c w Hf. split.
  - apply (GCData_OnSafePoint_made f b c w Hf).
  - intros Hl Hn Hle. cbv zeta.
    rewrite <- (elapsedNs_monotonic w Hl Hn Hle).
    apply (GCData_OnSafePoint_made f b c w Hf).
Qed.

Lemma GCData_OnSafePoint_trigger_iff_witness :
  GCData.scheduleGC_ (gcData (example_world (1000 + 200 * msNs))) = Some 7%nat
  /\ is_uint64_t (GCData.timeOfLastGcNs_ (gcData (example_world (1000 + 200 * msNs))))
  /\ is_uint64_t (timeNanos (example_world (1000 + 200 * msNs)))
  /\ GCData.timeOfLastGcNs_ (gcData (example_world (1000 + 200 * msNs)))
     <= timeNanos (example_world (1000 + 200 * msNs))
  /\ made_by (GCData_OnSafePoint 0 0) (example_world (1000 + 200 * msNs)) =
     Ok (tt, [CallScheduleGC 7%nat])
        (record_call (CallScheduleGC 7%nat) (example_world (1000 + 200 * msNs))).
Proof.
  assert (Hl : is_uint64_t (GCData.timeOfLastGcNs_ (gcData (example_world (1000 + 200 * msNs))))).
  { unfold is_uint64_t, UINT64_MODULUS. cbn. lia. }
  assert (Hn : is_uint64_t (timeNanos (example_world (1000 + 200 * msNs)))).
  { unfold is_uint64_t, UINT64_MODULUS. cbn. lia. }
  assert (Hle : GCData.timeOfLastGcNs_ (gcData (example_world (1000 + 200 * msNs)))
                <= timeNanos (example_world (1000 + 200 * msNs))).
  { cbn. lia. }
  split; [reflexivity |]. split; [exact Hl |]. split; [exact Hn |]. split; [exact Hle |].
  exact (proj2 (GCData_OnSafePoint_trigger_iff 7%nat 0 0
                  (example_world (1000 + 200 * msNs)) eq_refl) Hl Hn Hle).
Defined.

(** C7: with no trigger callback bound, [GCData::OnSafePoint] terminates the
    process on its assertion when a trigger condition is met, and returns
    having done nothing when none is. *)
Theorem GCData_OnSafePoint_unbound :
  forall (reportedAllocatedBytes reportedWeightedCount : Z) (w : World),
    GCData.scheduleGC_ (gcData w) = None ->
    GCData_OnSafePoint reportedAllocatedBytes reportedWeightedCount w =
      if (allocationThresholdBytes (config w) <? reportedAllocatedBytes)
         || (cooldownThresholdNs (config w) <=? elapsedNs w)
      then Fatal "scheduleGC_ cannot be empty"%string
      else Ok tt w.
Proof.
  intros b c w Hf. unfold GCData_OnSafePoint. fold (shouldSchedule b w).
  destruct (shouldSchedule b w); [| reflexivity].
  rewrite Hf. reflexivity.
Qed.

Lemma GCData_OnSafePoint_unbound_witness :
  GCData.scheduleGC_ (gcData (GCScheduler.new false 0)) = None
  /\ GCData_OnSafePoint (11 * MiB) 0 (GCScheduler.new false 0) =
     Fatal "scheduleGC_ cannot be empty"%string.
Proof.
  split; [reflexivity |].
  exact (GCData_OnSafePoint_unbound (11 * MiB) 0 (GCScheduler.new false 0) eq_refl).
Defined.

(** ** Binding the trigger callback *)

(** C8, as claimed, fails: on a decision state that already holds the
    callback [1], [GCData::SetScheduleGC] accepts the callback [2] and accepts
    an empty callback, replacing the bound one each time. *)
Lemma GCData_SetScheduleGC_not_rejected :
  let bound := set_gcData {| GCData.timeOfLastGcNs_ := 0;
                              GCData.scheduleGC_ := Some 1%nat |}
                          (GCScheduler.new false 0) in
  ~ is_fatal (GCData_SetScheduleGC (Some 2%nat) bound)
  /\ ~ is_fatal (GCData_SetScheduleGC None bound)
  /\ GCData_SetScheduleGC (Some 2%nat) bound =
     Ok tt (set_gcData {| GCData.timeOfLastGcNs_ := 0;
                          GCData.scheduleGC_ := Some 2%nat |} bound)
  /\ GCData_SetScheduleGC None bound =
     Ok tt (set_gcData {| GCData.timeOfLastGcNs_ := 0;
                          GCData.scheduleGC_ := None |} bound).
Proof.
  cbn. repeat split; intros H; exact H.
Qed.

(** C8, amended: [GCData::SetScheduleGC] checks nothing.  Whatever callback it
    is given, empty or not, and whatever was bound before, it returns
    normally having stored that callback and changed nothing else.  The next
    report that meets a trigger condition goes to the callback given last, or
    terminates the process if that one was empty. *)
Theorem GCData_SetScheduleGC_stores :
  forall (scheduleGC : function_void) (w : World),
    exists w' : World,
      GCData_SetScheduleGC scheduleGC w = Ok tt w'
      /\ GCData.scheduleGC_ (gcData w') = scheduleGC
      /\ GCData.timeOfLastGcNs_ (gcData w') = GCData.timeOfLastGcNs_ (gcData w)
      /\ config w' = config w
      /\ scheduleGC_ w' = scheduleGC_ w
      /\ timeNanos w' = timeNanos w
      /\ calls w' = calls w
      /\ (forall reportedAllocatedBytes reportedWeightedCount : Z,
             shouldSchedule reportedAllocatedBytes w' = true ->
             GCData_OnSafePoint reportedAllocatedBytes reportedWeightedCount w' =
               match scheduleGC with
               | Some f => Ok tt (record_call (CallScheduleGC f) w')
               | None => Fatal "scheduleGC_ cannot be empty"%string
               end).
Proof.
  intros g w. eexists. split; [reflexivity |].
  repeat (split; [reflexivity |]).
  intros b c Hfire. unfold GCData_OnSafePoint. rewrite Hfire.
  destruct g as [f |]; reflexivity.
Qed.

Lemma GCData_SetScheduleGC_stores_witness :
  let bound := example_world (1000 + 200 * msNs) in
  exists w' : World,
    GCData_SetScheduleGC (Some 9%nat) bound = Ok tt w'
    /\ shouldSchedule 0 w' = true
    /\ GCData_OnSafePoint 0 0 w' = Ok tt (record_call (CallScheduleGC 9%nat) w').
Proof.
  intros bound.
  destruct (GCData_SetScheduleGC_stores (Some 9%nat) bound)
    as (w' & Hset & Hcb & Hlast & Hcfg & Hroot & Hnow & Hcalls & Hnext).
  exists w'. split; [exact Hset |].
  assert (Hfire : shouldSchedule 0 w' = true).
  { unfold shouldSchedule, elapsedNs. rewrite Hcfg, Hlast, Hnow. reflexivity. }
  split; [exact Hfire |]. exact (Hnext 0 0 Hfire).
Defined.

(** C9: [GCScheduler::SetScheduleGC] terminates the process on an assertion
    when given an empty callback, and when a callback has been bound
    before; the first call with a non-empty callback returns normally, the
    callback stored in the scheduler and forwarded to the decision state. *)
Theorem GCScheduler_SetScheduleGC_once :
  (forall w : World,
      GCScheduler.SetScheduleGC None w = Fatal "scheduleGC cannot be empty"%string)
  /\ (forall (f : nat) (w : World),
         scheduleGC_ w = None ->
         GCScheduler.SetScheduleGC (Some f) w =
           Ok tt (set_gcData {| GCData.timeOfLastGcNs_ := GCData.timeOfLastGcNs_ (gcData w);
                                GCData.scheduleGC_ := Some f |}
                             (set_scheduleGC_ (Some f) w)))
  /\ (forall (f : nat) (scheduleGC : function_void) (w w' : World),
         GCScheduler.SetScheduleGC (Some f) w = Ok tt w' ->
         is_fatal (GCScheduler.SetScheduleGC scheduleGC w')
         /\ (scheduleGC <> None ->
             GCScheduler.SetScheduleGC scheduleGC w' =
               Fatal "scheduleGC must not have been set"%string)).
Proof.
  split; [reflexivity |]. split.
  - intros f w Hw. unfold GCScheduler.SetScheduleGC, bind, RuntimeAssert.
    cbn. rewrite Hw. reflexivity.
  - intros f g w w' H1.
    assert (Hw' : scheduleGC_ w' = Some f).
    { unfold GCScheduler.SetScheduleGC, bind, RuntimeAssert in H1. cbn in H1.
      destruct (scheduleGC_ w); cbn in H1; [discriminate |].
      injection H1 as <-. reflexivity. }
    unfold GCScheduler.SetScheduleGC, bind, RuntimeAssert.
    destruct g as [g |]; cbn; rewrite ?Hw'; cbn; split; try exact I; try reflexivity.
    intros Hg. now elim Hg.
Qed.

Lemma GCScheduler_SetScheduleGC_once_witness :
  scheduleGC_ (GCScheduler.new false 0) = None
  /\ GCScheduler.SetScheduleGC (Some 7%nat) (GCScheduler.new false 0) =
     Ok tt (set_gcData {| GCData.timeOfLastGcNs_ := 0; GCData.scheduleGC_ := Some 7%nat |}
                       (set_scheduleGC_ (Some 7%nat) (GCScheduler.new false 0)))
  /\ GCScheduler.SetScheduleGC (Some 8%nat)
       (set_gcData {| GCData.timeOfLastGcNs_ := 0; GCData.scheduleGC_ := Some 7%nat |}
                   (set_scheduleGC_ (Some 7%nat) (GCScheduler.new false 0))) =
     Fatal "scheduleGC must not have been set"%string.
Proof.
  split; [reflexivity |]. split.
  - exact (proj1 (proj2 GCScheduler_SetScheduleGC_once) 7%nat
                 (GCScheduler.new false 0) eq_refl).
  - refine (proj2 (proj2 (proj2 GCScheduler_SetScheduleGC_once) 7%nat (Some 8%nat)
                         (GCScheduler.new false 0) _ eq_refl) _).
    discriminate.
Defined.

(** ** The cooldown clock *)

Lemma GCData_OnPerformFullGC_eq (w : World) :
  GCData_OnPerformFullGC w =
  Ok tt (set_gcData {| GCData.timeOfLastGcNs_ := timeNanos w;
                       GCData.scheduleGC_ := GCData.scheduleGC_ (gcData w) |} w).
Proof. reflexivity. Qed.

(** C6: once [GCData::OnPerformFullGC] has run at time [t], a later
    [GCData::OnSafePoint] at time [t'] whose reported bytes do not exceed the
    live byte threshold calls the trigger callback if and only if [t' - t] is
    at least the live cooldown.  In Scenario C (cooldown 200 ms, byte
    threshold out of reach) a report of zero bytes at the time of
    construction triggers nothing, and one 201 ms later triggers. *)
Theorem cooldown_counts_from_last_collection :
  (forall (f : nat) (reportedAllocatedBytes reportedWeightedCount : Z)
          (w w1 w2 : World),
      GCData_OnPerformFullGC w = Ok tt w1 ->
      GCData.scheduleGC_ (gcData w1) = Some f ->
      gcData w2 = gcData w1 ->
      is_uint64_t (timeNanos w) ->
      is_uint64_t (timeNanos w2) ->
      timeNanos w <= timeNanos w2 ->
      reportedAllocatedBytes <= allocationThresholdBytes (config w2) ->
      made_by (GCData_OnSafePoint reportedAllocatedBytes reportedWeightedCount) w2 =
        if cooldownThresholdNs (config w2) <=? timeNanos w2 - timeNanos w
        then Ok (tt, [CallScheduleGC f]) (record_call (CallScheduleGC f) w2)
        else Ok (tt, []) w2)
  /\ (forall (gcAggressive : bool) (f : nat) (t0 : Z),
         is_uint64_t t0 ->
         is_uint64_t (t0 + 201 * msNs) ->
         let built := GCScheduler.new gcAggressive t0 in
         exists armed : World,
           GCScheduler.SetScheduleGC (Some f)
             (set_config (scenarioC_config (config built)) built) = Ok tt armed
           /\ timeNanos armed = t0
           /\ made_by (GCData_OnSafePoint 0 0) armed = Ok (tt, []) armed
           /\ made_by (GCData_OnSafePoint 0 0) (set_timeNanos (t0 + 201 * msNs) armed) =
              Ok (tt, [CallScheduleGC f])
                 (record_call (CallScheduleGC f) (set_timeNanos (t0 + 201 * msNs) armed))).
Proof.
  split.
  - intros f b c w w1 w2 Hgc Hf Hsame Ht Ht' Hle Hb.
    rewrite GCData_OnPerformFullGC_eq in Hgc. injection Hgc as <-.
    cbn in Hf, Hsame.
    assert (Hf2 : GCData.scheduleGC_ (gcData w2) = Some f) by (rewrite Hsame; exact Hf).
    assert (Hlast : GCData.timeOfLastGcNs_ (gcData w2) = timeNanos w) by (now rewrite Hsame).
    rewrite (GCData_OnSafePoint_made f b c w2 Hf2).
    unfold shouldSchedule.
    rewrite elapsedNs_monotonic by (rewrite ?Hlast; assumption).
    rewrite Hlast.
    replace (allocationThresholdBytes (config w2) <? b) with false
      by (symmetry; apply Z.ltb_ge; exact Hb).
    cbn [orb].
    destruct (cooldownThresholdNs (config w2) <=? timeNanos w2 - timeNanos w); reflexivity.
  - intros gcAggressive f t0 Ht0 Ht1 built.
    eexists. split; [reflexivity |]. split; [reflexivity |].
    unfold is_uint64_t, UINT64_MODULUS in Ht0, Ht1. unfold msNs in *.
    split.
    + erewrite GCData_OnSafePoint_made by reflexivity.
      unfold shouldSchedule, elapsedNs. cbn.
      rewrite Z.sub_diag. reflexivity.
    + erewrite GCData_OnSafePoint_made by reflexivity.
      unfold shouldSchedule, elapsedNs. cbn [config gcData timeNanos set_timeNanos
        set_gcData set_scheduleGC_ set_config built GCScheduler.new GCData_new
        GCData.timeOfLastGcNs_ scenarioC_config cooldownThresholdNs
        allocationThresholdBytes].
      replace (t0 + 201 * (1000 * 1000) - t0) with (201 * (1000 * 1000)) by lia.
      reflexivity.
Qed.

Lemma cooldown_counts_from_last_collection_witness :
  GCData_OnPerformFullGC (example_world 5000) =
    Ok tt (set_gcData {| GCData.timeOfLastGcNs_ := 5000; GCData.scheduleGC_ := Some 7%nat |}
                      (example_world 5000))
  /\ is_uint64_t (timeNanos (example_world 5000))
  /\ is_uint64_t (timeNanos (example_world (5000 + 200 * msNs)))
  /\ timeNanos (example_world 5000) <= timeNanos (example_world (5000 + 200 * msNs))
  /\ 0 <= allocationThresholdBytes (config (example_world (5000 + 200 * msNs)))
  /\ made_by (GCData_OnSafePoint 0 0)
       (set_gcData {| GCData.timeOfLastGcNs_ := 5000; GCData.scheduleGC_ := Some 7%nat |}
                   (example_world (5000 + 200 * msNs))) =
     Ok (tt, [CallScheduleGC 7%nat])
        (record_call (CallScheduleGC 7%nat)
           (set_gcData {| GCData.timeOfLastGcNs_ := 5000; GCData.scheduleGC_ := Some 7%nat |}
                       (example_world (5000 + 200 * msNs)))).
Proof.
  assert (H1 : is_uint64_t (timeNanos (example_world 5000))).
  { unfold is_uint64_t, UINT64_MODULUS. cbn. lia. }
  assert (H2 : is_uint64_t (timeNanos (example_world (5000 + 200 * msNs)))).
  { unfold is_uint64_t, UINT64_MODULUS. cbn. lia. }
  assert (H3 : timeNanos (example_world 5000) <= timeNanos (example_world (5000 + 200 * msNs))).
  { cbn. lia. }
  assert (H4 : 0 <= allocationThresholdBytes (config (example_world (5000 + 200 * msNs)))).
  { cbn. lia. }
  split; [reflexivity |]. split; [exact H1 |]. split; [exact H2 |].
  split; [exact H3 |]. split; [exact H4 |].
  exact (proj1 cooldown_counts_from_last_collection 7%nat 0 0
           (example_world 5000) _
           (set_gcData {| GCData.timeOfLastGcNs_ := 5000; GCData.scheduleGC_ := Some 7%nat |}
                       (example_world (5000 + 200 * msNs)))
           eq_refl eq_refl eq_refl H1 H2 H3 H4).
Defined.

(** ** The per-thread counter *)

(** C5: whatever the counters and snapshots of a [ThreadData] are,
    [OnStoppedForGC] returns it with both running totals at zero and both
    snapshots equal to the live values of the configuration; nothing else
    changes and nothing is called. *)
Theorem OnStoppedForGC_clears_and_refreshes :
  forall (this : ThreadData.t) (w : World),
    exists this' : ThreadData.t,
      made_by (ThreadData.OnStoppedForGC this) w = Ok (this', []) w
      /\ ThreadData.allocatedBytes_ this' = 0
      /\ ThreadData.safePointsCounter_ this' = 0
      /\ ThreadData.allocatedBytesThreshold_ this' = allocationThresholdBytes (config w)
      /\ ThreadData.safePointsCounterThreshold_ this' = threshold (config w)
      /\ ThreadData.onSafePoint_ this' = ThreadData.onSafePoint_ this.
Proof.
  intros this w. eexists. split.
  - apply made_by_none; reflexivity.
  - cbn. repeat split.
Qed.

(** C4: with aggressive counting disabled, a sequence of [OnSafePointRegular]
    calls of any weights makes no call at all, whatever callback is bound, and
    leaves the [ThreadData] and the shared objects exactly as they were. *)
Theorem OnSafePointRegular_disabled_is_noop :
  forall (weights : list Z) (this : ThreadData.t) (w : World),
    run false (map Regular weights) this w =
      Ok (map (fun _ => ([], this)) weights) w.
Proof.
  induction weights as [| weight rest IH]; intros this w; [reflexivity |].
  cbn [map run]. unfold bind at 1.
  rewrite (made_by_none (step false (Regular weight) this) this w w eq_refl eq_refl).
  cbn [fst snd]. unfold bind. rewrite IH. reflexivity.
Qed.

(** The callback of a [ThreadData] made by [GCScheduler::NewThreadData] is
    [GCData::OnSafePoint] of the scheduler. *)
Lemma NewThreadData_callback (w : World) :
  exists this : ThreadData.t,
    GCScheduler.NewThreadData w = Ok this w
    /\ ThreadData.onSafePoint_ this = GCData_OnSafePoint
    /\ ThreadData.allocatedBytes_ this = 0
    /\ ThreadData.allocatedBytesThreshold_ this = allocationThresholdBytes (config w).
Proof. eexists. split; [reflexivity |]. cbn. repeat split. Qed.

(** C10: a [ThreadData] made by [GCScheduler::NewThreadData] whose byte
    snapshot equals the live byte threshold, on an allocation that brings its
    byte counter to exactly that threshold, takes the slow path and reports
    the threshold itself to [GCData::OnSafePoint]; there the byte test, being
    strict, fails, so the trigger callback is called exactly when the
    cooldown has elapsed. *)
Theorem allocation_reaching_threshold_exactly :
  forall (size : Z) (this : ThreadData.t) (w : World),
    ThreadData.onSafePoint_ this = GCData_OnSafePoint ->
    ThreadData.allocatedBytesThreshold_ this = allocationThresholdBytes (config w) ->
    is_size_t (allocationThresholdBytes (config w)) ->
    ThreadData.allocatedBytes_ this + size = allocationThresholdBytes (config w) ->
    ThreadData.OnSafePointAllocation size this w =
      (GCData_OnSafePoint (allocationThresholdBytes (config w))
                          (ThreadData.safePointsCounter_ this) ;;
       ThreadData.ClearCountersAndUpdateThresholds this) w
    /\ shouldSchedule (allocationThresholdBytes (config w)) w =
       (cooldownThresholdNs (config w) <=? elapsedNs w)
    /\ (forall f : nat,
           GCData.scheduleGC_ (gcData w) = Some f ->
           exists (this' : ThreadData.t) (w' : World),
             made_by (ThreadData.OnSafePointAllocation size this) w =
               Ok (this', if cooldownThresholdNs (config w) <=? elapsedNs w
                          then [CallScheduleGC f] else []) w').
Proof.
  intros size this w Hcb Hsnap Hrange Hsum.
  assert (Hslow : ThreadData.OnSafePointAllocation size this w =
                  (GCData_OnSafePoint (allocationThresholdBytes (config w))
                                      (ThreadData.safePointsCounter_ this) ;;
                   ThreadData.ClearCountersAndUpdateThresholds this) w).
  { unfold ThreadData.OnSafePointAllocation. cbn [ThreadData.add_allocatedBytes_
      ThreadData.allocatedBytes_ ThreadData.allocatedBytesThreshold_].
    rewrite Hsum, Hsnap, (wrap_size_t_small _ Hrange), Z.ltb_irrefl.
    unfold ThreadData.OnSafePointSlowPath. cbn. rewrite Hcb, Hsum.
    rewrite (wrap_size_t_small _ Hrange). reflexivity. }
  assert (Hcond : shouldSchedule (allocationThresholdBytes (config w)) w =
                  (cooldownThresholdNs (config w) <=? elapsedNs w)).
  { unfold shouldSchedule. rewrite Z.ltb_irrefl. reflexivity. }
  split; [exact Hslow |]. split; [exact Hcond |].
  intros f Hf.
  assert (Hrun : ThreadData.OnSafePointAllocation size this w =
                 ThreadData.ClearCountersAndUpdateThresholds this
                   (if cooldownThresholdNs (config w) <=? elapsedNs w
                    then record_call (CallScheduleGC f) w else w)).
  { rewrite Hslow. unfold bind.
    rewrite (GCData_OnSafePoint_bound f _ _ w Hf), Hcond. reflexivity. }
  destruct (cooldownThresholdNs (config w) <=? elapsedNs w); do 2 eexists.
  - apply made_by_one; [rewrite Hrun |]; reflexivity.
  - apply made_by_none; [rewrite Hrun |]; reflexivity.
Qed.

Lemma allocation_reaching_threshold_exactly_witness :
  let this := {| ThreadData.onSafePoint_ := GCData_OnSafePoint;
                 ThreadData.allocatedBytes_ := 9 * MiB;
                 ThreadData.allocatedBytesThreshold_ := 10 * MiB;
                 ThreadData.safePointsCounter_ := 0;
                 ThreadData.safePointsCounterThreshold_ := 100000 |} in
  let w := example_world 2000 in
  ThreadData.onSafePoint_ this = GCData_OnSafePoint
  /\ ThreadData.allocatedBytesThreshold_ this = allocationThresholdBytes (config w)
  /\ is_size_t (allocationThresholdBytes (config w))
  /\ ThreadData.allocatedBytes_ this + MiB = allocationThresholdBytes (config w)
  /\ GCData.scheduleGC_ (gcData w) = Some 7%nat
  /\ exists (this' : ThreadData.t) (w' : World),
       made_by (ThreadData.OnSafePointAllocation MiB this) w =
         Ok (this', if cooldownThresholdNs (config w) <=? elapsedNs w
                    then [CallScheduleGC 7%nat] else []) w'.
Proof.
  intros this w.
  assert (Hr : is_size_t (allocationThresholdBytes (config w))).
  { unfold is_size_t, SIZE_MODULUS. cbn. lia. }
  split; [reflexivity |]. split; [reflexivity |]. split; [exact Hr |].
  split; [reflexivity |]. split; [reflexivity |].
  exact (proj2 (proj2 (allocation_reaching_threshold_exactly MiB this w
                         eq_refl eq_refl Hr eq_refl)) 7%nat eq_refl).
Defined.

(** ** Reports of a thread, call by call *)

Lemma ltb_as_leb (x y : Z) : (x <? y) = negb (y <=? x).
Proof. apply Z.ltb_antisym. Qed.

Lemma OnSafePointSlowPath_recorded (this : ThreadData.t) (w : World) :
  ThreadData.onSafePoint_ this = recordOnSafePoint ->
  ThreadData.OnSafePointSlowPath this w =
  Ok (cleared this w)
     (record_call (CallOnSafePoint (ThreadData.allocatedBytes_ this)
                                   (ThreadData.safePointsCounter_ this)) w).
Proof.
  intros Hcb. unfold ThreadData.OnSafePointSlowPath, bind. rewrite Hcb. reflexivity.
Qed.

Lemma OnSafePointAllocation_recorded (size : Z) (this : ThreadData.t) (w : World) :
  ThreadData.onSafePoint_ this = recordOnSafePoint ->
  is_size_t (ThreadData.allocatedBytes_ this + size) ->
  made_by (ThreadData.OnSafePointAllocation size this) w =
  if ThreadData.allocatedBytesThreshold_ this <=? ThreadData.allocatedBytes_ this + size
  then Ok (cleared this w,
           [CallOnSafePoint (ThreadData.allocatedBytes_ this + size)
                            (ThreadData.safePointsCounter_ this)])
          (record_call (CallOnSafePoint (ThreadData.allocatedBytes_ this + size)
                                        (ThreadData.safePointsCounter_ this)) w)
  else Ok (ThreadData.add_allocatedBytes_ size this, []) w.
Proof.
  intros Hcb Hfit.
  unfold ThreadData.OnSafePointAllocation.
  cbn [ThreadData.add_allocatedBytes_ ThreadData.allocatedBytes_
       ThreadData.allocatedBytesThreshold_].
  rewrite (wrap_size_t_small _ Hfit), ltb_as_leb.
  destruct (ThreadData.allocatedBytesThreshold_ this
            <=? ThreadData.allocatedBytes_ this + size); cbn [negb].
  - apply made_by_one; [| reflexivity].
    rewrite OnSafePointSlowPath_recorded by exact Hcb.
    cbn. rewrite (wrap_size_t_small _ Hfit). reflexivity.
  - apply made_by_none; reflexivity.
Qed.

Lemma OnSafePointRegular_recorded (weight : Z) (this : ThreadData.t) (w : World) :
  ThreadData.onSafePoint_ this = recordOnSafePoint ->
  is_size_t (ThreadData.safePointsCounter_ this + weight) ->
  made_by (ThreadData.OnSafePointRegular true weight this) w =
  if ThreadData.safePointsCounterThreshold_ this <=? ThreadData.safePointsCounter_ this + weight
  then Ok (cleared this w,
           [CallOnSafePoint (ThreadData.allocatedBytes_ this)
                            (ThreadData.safePointsCounter_ this + weight)])
          (record_call (CallOnSafePoint (ThreadData.allocatedBytes_ this)
                                        (ThreadData.safePointsCounter_ this + weight)) w)
  else Ok (ThreadData.add_safePointsCounter_ weight this, []) w.
Proof.
  intros Hcb Hfit.
  unfold ThreadData.OnSafePointRegular.
  cbn [ThreadData.add_safePointsCounter_ ThreadData.safePointsCounter_
       ThreadData.safePointsCounterThreshold_].
  rewrite (wrap_size_t_small _ Hfit), ltb_as_leb.
  destruct (ThreadData.safePointsCounterThreshold_ this
            <=? ThreadData.safePointsCounter_ this + weight); cbn [negb].
  - apply made_by_one; [| reflexivity].
    rewrite OnSafePointSlowPath_recorded by exact Hcb.
    cbn. rewrite (wrap_size_t_small _ Hfit). reflexivity.
  - apply made_by_none; reflexivity.
Qed.

(** A sequence of allocations, as long as the running total is a [size_t]
    value, reports as [spec_RecordAllocation] says. *)
Lemma run_allocations_refines (gcAggressive : bool) (sizes : list Z) :
  forall (this : ThreadData.t) (w : World),
    ThreadData.onSafePoint_ this = recordOnSafePoint ->
    allocations_fit (allocationThresholdBytes (config w))
                    (ThreadData.allocatedBytesThreshold_ this)
                    (ThreadData.allocatedBytes_ this) sizes = true ->
    exists (results : list (list Call * ThreadData.t)) (w' : World),
      run gcAggressive (map Allocation sizes) this w = Ok results w'
      /\ config w' = config w
      /\ calls_of results =
         spec_RecordAllocation (allocationThresholdBytes (config w))
                               (ThreadData.allocatedBytesThreshold_ this)
                               (ThreadData.allocatedBytes_ this)
                               (ThreadData.safePointsCounter_ this) sizes.
Proof.
  induction sizes as [| size rest IH]; intros this w Hcb Hfit.
  - exists [], w. repeat split.
  - cbn [allocations_fit] in Hfit. apply andb_true_iff in Hfit as [Hsz Hrest].
    apply is_size_tb_spec in Hsz.
    cbn [map run step spec_RecordAllocation]. unfold bind at 1.
    rewrite (OnSafePointAllocation_recorded size this w Hcb Hsz).
    destruct (ThreadData.allocatedBytesThreshold_ this
              <=? ThreadData.allocatedBytes_ this + size).
    + cbn [fst snd].
      destruct (IH (cleared this w)
                   (record_call (CallOnSafePoint (ThreadData.allocatedBytes_ this + size)
                                                 (ThreadData.safePointsCounter_ this)) w)
                   Hcb Hrest) as (results & w' & Hrun & Hcfg & Hcalls).
      unfold bind. rewrite Hrun. do 2 eexists. split; [reflexivity |].
      split; [exact Hcfg |]. cbn [calls_of map fst]. f_equal. exact Hcalls.
    + cbn [fst snd].
      assert (Hb : ThreadData.allocatedBytes_ (ThreadData.add_allocatedBytes_ size this)
                   = ThreadData.allocatedBytes_ this + size)
        by (cbn; apply wrap_size_t_small; exact Hsz).
      destruct (IH (ThreadData.add_allocatedBytes_ size this) w Hcb) as
        (results & w' & Hrun & Hcfg & Hcalls).
      { rewrite Hb. exact Hrest. }
      unfold bind. rewrite Hrun. do 2 eexists. split; [reflexivity |].
      split; [exact Hcfg |]. cbn [calls_of map fst]. f_equal.
      rewrite Hb in Hcalls. exact Hcalls.
Qed.

(** A sequence of regular safepoints in an aggressive build, as long as the
    running total is a [size_t] value, reports and counts as
    [spec_RecordSafepoint] says. *)
Lemma run_safepoints_refines (weights : list Z) :
  forall (this : ThreadData.t) (w : World),
    ThreadData.onSafePoint_ this = recordOnSafePoint ->
    safepoints_fit (threshold (config w))
                   (ThreadData.safePointsCounterThreshold_ this)
                   (ThreadData.safePointsCounter_ this) weights = true ->
    exists (results : list (list Call * ThreadData.t)) (w' : World),
      run true (map Regular weights) this w = Ok results w'
      /\ config w' = config w
      /\ calls_and_counter_of results =
         spec_RecordSafepoint (threshold (config w))
                              (ThreadData.safePointsCounterThreshold_ this)
                              (ThreadData.allocatedBytes_ this)
                              (ThreadData.safePointsCounter_ this) weights.
Proof.
  induction weights as [| weight rest IH]; intros this w Hcb Hfit.
  - exists [], w. repeat split.
  - cbn [safepoints_fit] in Hfit. apply andb_true_iff in Hfit as [Hsz Hrest].
    apply is_size_tb_spec in Hsz.
    cbn [map run step spec_RecordSafepoint]. unfold bind at 1.
    rewrite (OnSafePointRegular_recorded weight this w Hcb Hsz).
    destruct (ThreadData.safePointsCounterThreshold_ this
              <=? ThreadData.safePointsCounter_ this + weight).
    + cbn [fst snd].
      destruct (IH (cleared this w)
                   (record_call (CallOnSafePoint (ThreadData.allocatedBytes_ this)
                                                 (ThreadData.safePointsCounter_ this + weight)) w)
                   Hcb Hrest) as (results & w' & Hrun & Hcfg & Hcalls).
      unfold bind. rewrite Hrun. do 2 eexists. split; [reflexivity |].
      split; [exact Hcfg |]. cbn [calls_and_counter_of map fst snd]. f_equal. exact Hcalls.
    + cbn [fst snd].
      assert (Hc : ThreadData.safePointsCounter_ (ThreadData.add_safePointsCounter_ weight this)
                   = ThreadData.safePointsCounter_ this + weight)
        by (cbn; apply wrap_size_t_small; exact Hsz).
      destruct (IH (ThreadData.add_safePointsCounter_ weight this) w Hcb) as
        (results & w' & Hrun & Hcfg & Hcalls).
      { rewrite Hc. exact Hrest. }
      unfold bind. rewrite Hrun. do 2 eexists. split; [reflexivity |].
      split; [exact Hcfg |]. cbn [calls_and_counter_of map fst snd]. f_equal.
      * rewrite Hc. reflexivity.
      * rewrite Hc in Hcalls. exact Hcalls.
Qed.

(** C2, as claimed, fails for sizes that make the byte counter wrap around.
    With the default threshold of 10 MiB, a fresh [ThreadData] that is told of
    1 MiB and then of [SIZE_MAX] bytes never reports, although the bytes
    allocated since the last reset exceed the threshold at the second call:
    the counter wraps to 1 MiB - 1. *)
Lemma OnSafePointAllocation_wraps_without_report :
  let w := GCScheduler.new false 0 in
  is_size_t MiB /\ is_size_t SIZE_MAX
  /\ exists (this : ThreadData.t) (results : list (list Call * ThreadData.t)) (w' : World),
       ThreadData.new recordOnSafePoint w = Ok this w
       /\ ThreadData.allocatedBytesThreshold_ this = 10 * MiB
       /\ run false [Allocation MiB; Allocation SIZE_MAX] this w = Ok results w'
       /\ calls_of results = [[]; []]
       /\ map (fun r => ThreadData.allocatedBytes_ (snd r)) results = [MiB; MiB - 1]
       /\ spec_RecordAllocation (10 * MiB) (10 * MiB) 0 0 [MiB; SIZE_MAX] =
          [[]; [CallOnSafePoint (MiB + SIZE_MAX) 0]]
       /\ calls_of results <> spec_RecordAllocation (10 * MiB) (10 * MiB) 0 0 [MiB; SIZE_MAX].
Proof.
  intros w. split; [| split].
  - unfold is_size_t, SIZE_MODULUS, MiB. lia.
  - unfold is_size_t, SIZE_MAX, SIZE_MODULUS. lia.
  - do 3 eexists. split; [reflexivity |]. split; [reflexivity |].
    split; [vm_compute; reflexivity |].
    split; [reflexivity |]. split; [reflexivity |]. split; [reflexivity |].
    vm_compute. discriminate.
Qed.

(** C2, amended: for every sequence of [OnSafePointAllocation] calls in which
    the bytes allocated since the last reset stay within [size_t], in an
    aggressive build or not, a report is made exactly at the calls where that
    total reaches or exceeds the snapshot of the byte threshold, once and with
    the two totals; the totals then restart from zero and the snapshot is
    taken again from the configuration.  With a threshold of 10 MiB, ten
    allocations of 1 MiB make exactly one report, at the tenth call. *)
Theorem OnSafePointAllocation_reports_at_threshold :
  (forall (gcAggressive : bool) (sizes : list Z) (this : ThreadData.t) (w : World),
      ThreadData.onSafePoint_ this = recordOnSafePoint ->
      allocations_fit (allocationThresholdBytes (config w))
                      (ThreadData.allocatedBytesThreshold_ this)
                      (ThreadData.allocatedBytes_ this) sizes = true ->
      exists (results : list (list Call * ThreadData.t)) (w' : World),
        run gcAggressive (map Allocation sizes) this w = Ok results w'
        /\ calls_of results =
           spec_RecordAllocation (allocationThresholdBytes (config w))
                                 (ThreadData.allocatedBytesThreshold_ this)
                                 (ThreadData.allocatedBytes_ this)
                                 (ThreadData.safePointsCounter_ this) sizes)
  /\ (forall (gcAggressive : bool) (w : World),
         allocationThresholdBytes (config w) = 10 * MiB ->
         exists (this : ThreadData.t) (results : list (list Call * ThreadData.t))
                (w' : World),
           ThreadData.new recordOnSafePoint w = Ok this w
           /\ run gcAggressive (repeat (Allocation MiB) 10) this w = Ok results w'
           /\ calls_of results = repeat [] 9 ++ [[CallOnSafePoint (10 * MiB) 0]]).
Proof.
  split.
  - intros gcAggressive sizes this w Hcb Hfit.
    destruct (run_allocations_refines gcAggressive sizes this w Hcb Hfit)
      as (results & w' & Hrun & _ & Hcalls).
    exists results, w'. split; assumption.
  - intros gcAggressive w Hthr.
    set (this := cleared (ThreadData.mk recordOnSafePoint 0 0 0 0) w).
    destruct (run_allocations_refines gcAggressive (repeat MiB 10) this w eq_refl)
      as (results & w' & Hrun & _ & Hcalls).
    { cbn [this cleared ThreadData.allocatedBytesThreshold_ ThreadData.allocatedBytes_].
      rewrite Hthr. vm_compute. reflexivity. }
    exists this, results, w'. split; [reflexivity |]. split.
    + rewrite map_repeat in Hrun. exact Hrun.
    + rewrite Hcalls.
      cbn [this cleared ThreadData.allocatedBytesThreshold_ ThreadData.allocatedBytes_
           ThreadData.safePointsCounter_].
      rewrite Hthr. vm_compute. reflexivity.
Qed.

Lemma OnSafePointAllocation_reports_at_threshold_witness :
  let w := GCScheduler.new true 0 in
  let this := cleared (ThreadData.mk recordOnSafePoint 0 0 0 0) w in
  ThreadData.onSafePoint_ this = recordOnSafePoint
  /\ allocations_fit (allocationThresholdBytes (config w))
                     (ThreadData.allocatedBytesThreshold_ this)
                     (ThreadData.allocatedBytes_ this) [6000; 4000; 1] = true
  /\ exists (results : list (list Call * ThreadData.t)) (w' : World),
       run true (map Allocation [6000; 4000; 1]) this w = Ok results w'
       /\ calls_of results =
          spec_RecordAllocation (allocationThresholdBytes (config w))
                                (ThreadData.allocatedBytesThreshold_ this)
                                (ThreadData.allocatedBytes_ this)
                                (ThreadData.safePointsCounter_ this) [6000; 4000; 1].
Proof.
  intros w this.
  split; [reflexivity |]. split; [reflexivity |].
  exact (proj1 OnSafePointAllocation_reports_at_threshold true [6000; 4000; 1] this w
               eq_refl eq_refl).
Defined.

(** Safepoints of weight 1 up to a snapshot that the last of them reaches. *)
Lemma spec_RecordSafepoint_unit_weights (live bytes : Z) (n : nat) :
  forall weighted snapshot : Z,
    snapshot = weighted + Z.of_nat n + 1 ->
    spec_RecordSafepoint live snapshot bytes weighted (repeat 1 n ++ [1]) =
    map (fun k => ([], weighted + Z.of_nat k)) (seq 1 n)
    ++ [([CallOnSafePoint bytes snapshot], 0)].
Proof.
  induction n as [| n IH]; intros weighted snapshot Hs.
  - cbn [repeat app spec_RecordSafepoint seq map].
    replace (snapshot <=? weighted + 1) with true by (symmetry; apply Z.leb_le; lia).
    replace (weighted + 1) with snapshot by lia. reflexivity.
  - cbn [repeat app spec_RecordSafepoint].
    replace (snapshot <=? weighted + 1) with false by (symmetry; apply Z.leb_gt; lia).
    rewrite (IH (weighted + 1) snapshot) by lia.
    cbn [seq map app].
    replace (weighted + Z.of_nat 1) with (weighted + 1) by lia.
    rewrite <- (seq_shift n 1), map_map.
    do 2 f_equal. apply map_ext. intros k. f_equal. lia.
Qed.

Lemma safepoints_fit_unit_weights (live : Z) (n : nat) :
  forall weighted snapshot : Z,
    0 <= weighted ->
    snapshot = weighted + Z.of_nat n + 1 ->
    snapshot < SIZE_MODULUS ->
    safepoints_fit live snapshot weighted (repeat 1 n ++ [1]) = true.
Proof.
  induction n as [| n IH]; intros weighted snapshot H0 Hs Hmax.
  - cbn [repeat app safepoints_fit].
    replace (snapshot <=? weighted + 1) with true by (symmetry; apply Z.leb_le; lia).
    rewrite andb_true_r. apply is_size_tb_spec. unfold is_size_t. lia.
  - cbn [repeat app safepoints_fit].
    replace (snapshot <=? weighted + 1) with false by (symmetry; apply Z.leb_gt; lia).
    rewrite (IH (weighted + 1) snapshot) by lia.
    rewrite andb_true_r. apply is_size_tb_spec. unfold is_size_t. lia.
Qed.

(** C3, as claimed, fails for weights that make the weighted counter wrap
    around.  In an aggressive build, with its threshold of 1000, a fresh
    [ThreadData] that passes a safepoint of weight 5 and then one of weight
    [SIZE_MAX] never reports, although the weight since the last reset
    exceeds the threshold at the second call: the counter wraps to 4. *)
Lemma OnSafePointRegular_wraps_without_report :
  let w := GCScheduler.new true 0 in
  is_size_t 5 /\ is_size_t SIZE_MAX
  /\ exists (this : ThreadData.t) (results : list (list Call * ThreadData.t)) (w' : World),
       ThreadData.new recordOnSafePoint w = Ok this w
       /\ ThreadData.safePointsCounterThreshold_ this = 1000
       /\ run true [Regular 5; Regular SIZE_MAX] this w = Ok results w'
       /\ calls_and_counter_of results = [([], 5); ([], 4)]
       /\ spec_RecordSafepoint 1000 1000 0 0 [5; SIZE_MAX] =
          [([], 5); ([CallOnSafePoint 0 (5 + SIZE_MAX)], 0)]
       /\ calls_and_counter_of results <> spec_RecordSafepoint 1000 1000 0 0 [5; SIZE_MAX].
Proof.
  intros w. split; [| split].
  - unfold is_size_t, SIZE_MODULUS. lia.
  - unfold is_size_t, SIZE_MAX, SIZE_MODULUS. lia.
  - do 3 eexists. split; [reflexivity |]. split; [reflexivity |].
    split; [vm_compute; reflexivity |].
    split; [reflexivity |]. split; [reflexivity |].
    vm_compute. discriminate.
Qed.

(** C3, amended: in an aggressive build, for every sequence of
    [OnSafePointRegular] calls in which the weight accumulated since the last
    reset stays within [size_t], a report is made exactly at the calls where
    that total reaches or exceeds the snapshot of the safepoint threshold,
    once and with the two totals, and the weighted counter is zero right after
    such a call; after any other call it is the accumulated weight.  With a
    threshold of 100000, the first 99999 safepoints of weight 1 make no
    report and the 100000th makes exactly one and leaves the counter at 0. *)
Theorem OnSafePointRegular_reports_at_threshold :
  (forall (weights : list Z) (this : ThreadData.t) (w : World),
      ThreadData.onSafePoint_ this = recordOnSafePoint ->
      safepoints_fit (threshold (config w))
                     (ThreadData.safePointsCounterThreshold_ this)
                     (ThreadData.safePointsCounter_ this) weights = true ->
      exists (results : list (list Call * ThreadData.t)) (w' : World),
        run true (map Regular weights) this w = Ok results w'
        /\ calls_and_counter_of results =
           spec_RecordSafepoint (threshold (config w))
                                (ThreadData.safePointsCounterThreshold_ this)
                                (ThreadData.allocatedBytes_ this)
                                (ThreadData.safePointsCounter_ this) weights)
  /\ (forall w : World,
         threshold (config w) = 100000 ->
         exists (this : ThreadData.t) (results : list (list Call * ThreadData.t))
                (w' : World),
           ThreadData.new recordOnSafePoint w = Ok this w
           /\ run true (repeat (Regular 1) (Z.to_nat 99999) ++ [Regular 1]) this w =
              Ok results w'
           /\ calls_and_counter_of results =
              map (fun k => ([], Z.of_nat k)) (seq 1 (Z.to_nat 99999))
              ++ [([CallOnSafePoint 0 100000], 0)]).
Proof.
  split.
  - intros weights this w Hcb Hfit.
    destruct (run_safepoints_refines weights this w Hcb Hfit)
      as (results & w' & Hrun & _ & Hcalls).
    exists results, w'. split; assumption.
  - intros w Hthr.
    set (this := cleared (ThreadData.mk recordOnSafePoint 0 0 0 0) w).
    assert (Hn : 100000 = 0 + Z.of_nat (Z.to_nat 99999) + 1)
      by (rewrite Z2Nat.id; lia).
    destruct (run_safepoints_refines (repeat 1 (Z.to_nat 99999) ++ [1]) this w eq_refl)
      as (results & w' & Hrun & _ & Hcalls).
    { change (safepoints_fit (threshold (config w)) (threshold (config w)) 0
                             (repeat 1 (Z.to_nat 99999) ++ [1]) = true).
      rewrite Hthr. apply safepoints_fit_unit_weights; [lia | exact Hn |].
      unfold SIZE_MODULUS. lia. }
    exists this, results, w'. split; [reflexivity |]. split.
    + rewrite map_app, map_repeat in Hrun. exact Hrun.
    + rewrite Hcalls.
      change (spec_RecordSafepoint (threshold (config w)) (threshold (config w)) 0 0
                                   (repeat 1 (Z.to_nat 99999) ++ [1]) =
              map (fun k => ([], 0 + Z.of_nat k)) (seq 1 (Z.to_nat 99999))
              ++ [([CallOnSafePoint 0 100000], 0)]).
      rewrite Hthr. apply spec_RecordSafepoint_unit_weights. exact Hn.
Qed.

Lemma OnSafePointRegular_reports_at_threshold_witness :
  let w := GCScheduler.new true 0 in
  let this := cleared (ThreadData.mk recordOnSafePoint 0 0 0 0) w in
  ThreadData.onSafePoint_ this = recordOnSafePoint
  /\ safepoints_fit (threshold (config w))
                    (ThreadData.safePointsCounterThreshold_ this)
                    (ThreadData.safePointsCounter_ this) [600; 400; 1] = true
  /\ exists (results : list (list Call * ThreadData.t)) (w' : World),
       run true (map Regular [600; 400; 1]) this w = Ok results w'
       /\ calls_and_counter_of results =
          spec_RecordSafepoint (threshold (config w))
                               (ThreadData.safePointsCounterThreshold_ this)
                               (ThreadData.allocatedBytes_ this)
                               (ThreadData.safePointsCounter_ this) [600; 400; 1].
Proof.
  intros w this.
  split; [reflexivity |]. split; [reflexivity |].
  exact (proj1 OnSafePointRegular_reports_at_threshold [600; 400; 1] this w
               eq_refl eq_refl).
Defined.

(** * Further properties of the per-thread counter *)

Lemma wrap_size_t_range (z : Z) : is_size_t (wrap_size_t z).
Proof.
  unfold is_size_t, wrap_size_t, SIZE_MODULUS. apply Z.mod_pos_bound. lia.
Qed.

Lemma made_by_inv {A : Type} (m : M A) (r : A * list Call) (w w' : World) :
  made_by m w = Ok r w' -> m w = Ok (fst r) w'.
Proof.
  unfold made_by. destruct (m w) as [a w1 | message]; [| discriminate].
  intros H. injection H as <- <-. reflexivity.
Qed.

Lemma run_cons_inv (gcAggressive : bool) (s : Step) (rest : list Step)
      (this : ThreadData.t) (w w' : World) (results : list (list Call * ThreadData.t)) :
  run gcAggressive (s :: rest) this w = Ok results w' ->
  exists (this1 : ThreadData.t) (w1 : World) (made : list Call)
         (rs : list (list Call * ThreadData.t)),
    step gcAggressive s this w = Ok this1 w1
    /\ made_by (step gcAggressive s this) w = Ok (this1, made) w1
    /\ run gcAggressive rest this1 w1 = Ok rs w'
    /\ results = (made, this1) :: rs.
Proof.
  cbn [run]. unfold bind at 1.
  destruct (made_by (step gcAggressive s this) w) as [[this1 made] w1 | message] eqn:Hm;
    [| discriminate].
  cbn [fst snd]. unfold bind.
  destruct (run gcAggressive rest this1 w1) as [rs w2 | message] eqn:Hr; [| discriminate].
  unfold ret. intros H. injection H as <- <-.
  exists this1, w1, made, rs. repeat split; try assumption.
  apply (made_by_inv _ _ _ _ Hm).
Qed.

Lemma OnSafePointSlowPath_cleared (this this' : ThreadData.t) (w w' : World) :
  ThreadData.OnSafePointSlowPath this w = Ok this' w' ->
  this' = cleared this w'.
Proof.
  unfold ThreadData.OnSafePointSlowPath, bind.
  destruct (ThreadData.onSafePoint_ this _ _ w) as [[] w1 | message]; [| discriminate].
  unfold ThreadData.ClearCountersAndUpdateThresholds. intros H.
  injection H as <- <-. reflexivity.
Qed.

Lemma counters_below_cleared (this : ThreadData.t) (w : World) :
  counters_below (cleared this w).
Proof.
  unfold counters_below, counter_below, is_size_t, SIZE_MODULUS. cbn. lia.
Qed.

Lemma step_counters_below (gcAggressive : bool) (s : Step)
      (this this' : ThreadData.t) (w w' : World) :
  counters_below this ->
  step gcAggressive s this w = Ok this' w' ->
  counters_below this'.
Proof.
  intros [Hb Hc] Hstep. destruct s as [weight | size |]; cbn [step] in Hstep.
  - unfold ThreadData.OnSafePointRegular in Hstep.
    destruct gcAggressive.
    + destruct (ThreadData.safePointsCounter_ (ThreadData.add_safePointsCounter_ weight this)
                <? ThreadData.safePointsCounterThreshold_
                     (ThreadData.add_safePointsCounter_ weight this)) eqn:Hlt.
      * injection Hstep as <- <-. split; [exact Hb |].
        split; [apply wrap_size_t_range |]. right. apply Z.ltb_lt. exact Hlt.
      * rewrite (OnSafePointSlowPath_cleared _ _ _ _ Hstep).
        apply counters_below_cleared.
    + injection Hstep as <- <-. split; assumption.
  - unfold ThreadData.OnSafePointAllocation in Hstep.
    destruct (ThreadData.allocatedBytes_ (ThreadData.add_allocatedBytes_ size this)
              <? ThreadData.allocatedBytesThreshold_
                   (ThreadData.add_allocatedBytes_ size this)) eqn:Hlt.
    + injection Hstep as <- <-. split; [| exact Hc].
      split; [apply wrap_size_t_range |]. right. apply Z.ltb_lt. exact Hlt.
    + rewrite (OnSafePointSlowPath_cleared _ _ _ _ Hstep).
      apply counters_below_cleared.
  - injection Hstep as <- <-. unfold counters_below, counter_below, is_size_t, SIZE_MODULUS.
    cbn. lia.
Qed.

(** X1: between resets each counter of a [ThreadData] is a [size_t] value
    that is zero or strictly below its snapshot.  The constructor establishes
    this and every call that returns keeps it, in either build, whatever the
    sizes and weights (wrap-around included) and whatever the bound callback
    does to the shared objects. *)
Theorem counters_stay_below_snapshots :
  (forall (onSafePoint : ThreadData.OnSafePointCallback) (w w' : World)
          (this : ThreadData.t),
      ThreadData.new onSafePoint w = Ok this w' -> counters_below this)
  /\ (forall (gcAggressive : bool) (steps : list Step) (this : ThreadData.t)
             (w w' : World) (results : list (list Call * ThreadData.t)),
         counters_below this ->
         run gcAggressive steps this w = Ok results w' ->
         Forall (fun r => counters_below (snd r)) results).
Proof.
  split.
  - intros cb w w' this H. injection H as <- <-.
    unfold counters_below, counter_below, is_size_t, SIZE_MODULUS. cbn. lia.
  - intros gcAggressive steps.
    induction steps as [| s rest IH]; intros this w w' results Hinv Hrun.
    + injection Hrun as <- <-. constructor.
    + apply run_cons_inv in Hrun as (this1 & w1 & made & rs & Hstep & _ & Hrest & ->).
      pose proof (step_counters_below _ _ _ _ _ _ Hinv Hstep) as Hinv1.
      constructor; [exact Hinv1 |]. exact (IH this1 w1 w' rs Hinv1 Hrest).
Qed.

Lemma counters_stay_below_snapshots_witness :
  let w := GCScheduler.new true 0 in
  let this := cleared (ThreadData.mk recordOnSafePoint 0 0 0 0) w in
  ThreadData.new recordOnSafePoint w = Ok this w
  /\ counters_below this
  /\ exists (results : list (list Call * ThreadData.t)) (w' : World),
       run true [Allocation 9999; Regular SIZE_MAX; Regular 2; Allocation 1] this w
         = Ok results w'
       /\ Forall (fun r => counters_below (snd r)) results.
Proof.
  intros w this.
  pose proof (proj1 counters_stay_below_snapshots recordOnSafePoint w w this eq_refl)
    as Hinv.
  split; [reflexivity |]. split; [exact Hinv |].
  eexists. eexists.
  assert (Hrun : run true [Allocation 9999; Regular SIZE_MAX; Regular 2; Allocation 1]
                     this w = Ok _ _) by (vm_compute; reflexivity).
  split; [exact Hrun |].
  exact (proj2 counters_stay_below_snapshots true _ this w _ _ Hinv Hrun).
Defined.

Lemma run_cons_ok (gcAggressive : bool) (s : Step) (rest : list Step)
      (this this1 : ThreadData.t) (w w1 w' : World) (made : list Call)
      (rs : list (list Call * ThreadData.t)) :
  made_by (step gcAggressive s this) w = Ok (this1, made) w1 ->
  run gcAggressive rest this1 w1 = Ok rs w' ->
  run gcAggressive (s :: rest) this w = Ok ((made, this1) :: rs) w'.
Proof.
  intros Hm Hr. cbn [run]. unfold bind at 1. rewrite Hm. cbn [fst snd].
  unfold bind. rewrite Hr. reflexivity.
Qed.

(** A sequence of calls of all kinds, as long as the running totals are
    [size_t] values, reports and counts as [spec_steps] says. *)
Lemma run_refines_spec_steps (gcAggressive : bool) (steps : list Step) :
  forall (this : ThreadData.t) (w : World),
    ThreadData.onSafePoint_ this = recordOnSafePoint ->
    steps_fit gcAggressive (config w)
              (ThreadData.allocatedBytesThreshold_ this)
              (ThreadData.safePointsCounterThreshold_ this)
              (ThreadData.allocatedBytes_ this)
              (ThreadData.safePointsCounter_ this) steps = true ->
    exists (results : list (list Call * ThreadData.t)) (w' : World),
      run gcAggressive steps this w = Ok results w'
      /\ config w' = config w
      /\ observations_of results =
         spec_steps gcAggressive (config w)
                    (ThreadData.allocatedBytesThreshold_ this)
                    (ThreadData.safePointsCounterThreshold_ this)
                    (ThreadData.allocatedBytes_ this)
                    (ThreadData.safePointsCounter_ this) steps.
Proof.
  induction steps as [| s rest IH]; intros this w Hcb Hfit.
  - exists [], w. repeat split.
  - destruct s as [weight | size |]; cbn [steps_fit spec_steps] in Hfit |- *.
    + destruct gcAggressive.
      * apply andb_true_iff in Hfit as [Hsz Hrest]. apply is_size_tb_spec in Hsz.
        pose proof (OnSafePointRegular_recorded weight this w Hcb Hsz) as Hstep.
        destruct (ThreadData.safePointsCounterThreshold_ this
                  <=? ThreadData.safePointsCounter_ this + weight).
        -- destruct (IH (cleared this w)
                        (record_call (CallOnSafePoint
                                        (ThreadData.allocatedBytes_ this)
                                        (ThreadData.safePointsCounter_ this + weight)) w)
                        Hcb Hrest)
             as (rs & w' & Hrun & Hcfg & Hobs).
           do 2 eexists. split; [exact (run_cons_ok true (Regular weight) rest this _ w _ w' _ rs Hstep Hrun) |].
           split; [exact Hcfg |].
           cbn [observations_of map fst snd]. f_equal. exact Hobs.
        -- assert (Hc : ThreadData.safePointsCounter_
                          (ThreadData.add_safePointsCounter_ weight this)
                        = ThreadData.safePointsCounter_ this + weight)
             by (cbn; apply wrap_size_t_small; exact Hsz).
           destruct (IH (ThreadData.add_safePointsCounter_ weight this) w Hcb)
             as (rs & w' & Hrun & Hcfg & Hobs).
           { rewrite Hc. exact Hrest. }
           do 2 eexists. split; [exact (run_cons_ok true (Regular weight) rest this _ w _ w' _ rs Hstep Hrun) |].
           split; [exact Hcfg |].
           cbn [observations_of map fst snd]. rewrite Hc in Hobs |- *.
           f_equal. exact Hobs.
      * destruct (IH this w Hcb Hfit) as (rs & w' & Hrun & Hcfg & Hobs).
        do 2 eexists. split.
        -- apply (run_cons_ok false (Regular weight) rest this this w w w' [] rs);
             [apply made_by_none; reflexivity | exact Hrun].
        -- split; [exact Hcfg |].
           cbn [observations_of map fst snd]. f_equal. exact Hobs.
    + apply andb_true_iff in Hfit as [Hsz Hrest]. apply is_size_tb_spec in Hsz.
      pose proof (OnSafePointAllocation_recorded size this w Hcb Hsz) as Hstep.
      destruct (ThreadData.allocatedBytesThreshold_ this
                <=? ThreadData.allocatedBytes_ this + size).
      * destruct (IH (cleared this w)
                     (record_call (CallOnSafePoint
                                     (ThreadData.allocatedBytes_ this + size)
                                     (ThreadData.safePointsCounter_ this)) w)
                     Hcb Hrest)
          as (rs & w' & Hrun & Hcfg & Hobs).
        do 2 eexists. split; [exact (run_cons_ok gcAggressive (Allocation size) rest this _ w _ w' _ rs Hstep Hrun) |].
        split; [exact Hcfg |].
        cbn [observations_of map fst snd]. f_equal. exact Hobs.
      * assert (Hb : ThreadData.allocatedBytes_ (ThreadData.add_allocatedBytes_ size this)
                     = ThreadData.allocatedBytes_ this + size)
          by (cbn; apply wrap_size_t_small; exact Hsz).
        destruct (IH (ThreadData.add_allocatedBytes_ size this) w Hcb)
          as (rs & w' & Hrun & Hcfg & Hobs).
        { rewrite Hb. exact Hrest. }
        do 2 eexists. split; [exact (run_cons_ok gcAggressive (Allocation size) rest this _ w _ w' _ rs Hstep Hrun) |].
        split; [exact Hcfg |].
        cbn [observations_of map fst snd]. rewrite Hb in Hobs |- *.
        f_equal. exact Hobs.
    + destruct (IH (cleared this w) w Hcb Hfit) as (rs & w' & Hrun & Hcfg & Hobs).
      do 2 eexists. split.
      * apply (run_cons_ok gcAggressive StoppedForGC rest this (cleared this w) w w w' [] rs);
          [apply made_by_none; reflexivity | exact Hrun].
      * split; [exact Hcfg |].
        cbn [observations_of map fst snd]. f_equal. exact Hobs.
Qed.

(** X2: on one thread the two counters are not independent: a report caused
    by either of them carries both running totals and zeroes both, and
    [OnStoppedForGC] zeroes both without a report.  For every sequence of
    [OnSafePointRegular], [OnSafePointAllocation] and [OnStoppedForGC] calls
    whose running totals stay within [size_t], in either build, the reports
    made and the two counters left by each call are those of [spec_steps]. *)
Theorem counters_reset_together :
  forall (gcAggressive : bool) (steps : list Step) (this : ThreadData.t) (w : World),
    ThreadData.onSafePoint_ this = recordOnSafePoint ->
    steps_fit gcAggressive (config w)
              (ThreadData.allocatedBytesThreshold_ this)
              (ThreadData.safePointsCounterThreshold_ this)
              (ThreadData.allocatedBytes_ this)
              (ThreadData.safePointsCounter_ this) steps = true ->
    exists (results : list (list Call * ThreadData.t)) (w' : World),
      run gcAggressive steps this w = Ok results w'
      /\ observations_of results =
         spec_steps gcAggressive (config w)
                    (ThreadData.allocatedBytesThreshold_ this)
                    (ThreadData.safePointsCounterThreshold_ this)
                    (ThreadData.allocatedBytes_ this)
                    (ThreadData.safePointsCounter_ this) steps.
Proof.
  intros gcAggressive steps this w Hcb Hfit.
  destruct (run_refines_spec_steps gcAggressive steps this w Hcb Hfit)
    as (results & w' & Hrun & _ & Hobs).
  exists results, w'. split; assumption.
Qed.

(** In an aggressive build (thresholds 1000 and 10000): 900 units of weight,
    then an allocation that reports, then 900 units again, which no longer
    reach the threshold because the report zeroed the weighted counter. *)
Lemma counters_reset_together_witness :
  let w := GCScheduler.new true 0 in
  let this := cleared (ThreadData.mk recordOnSafePoint 0 0 0 0) w in
  let steps := [Regular 900; Allocation 10000; Regular 900; StoppedForGC; Regular 100] in
  ThreadData.onSafePoint_ this = recordOnSafePoint
  /\ steps_fit true (config w)
               (ThreadData.allocatedBytesThreshold_ this)
               (ThreadData.safePointsCounterThreshold_ this)
               (ThreadData.allocatedBytes_ this)
               (ThreadData.safePointsCounter_ this) steps = true
  /\ exists (results : list (list Call * ThreadData.t)) (w' : World),
       run true steps this w = Ok results w'
       /\ observations_of results =
          [([], 0, 900); ([CallOnSafePoint 10000 900], 0, 0); ([], 0, 900);
           ([], 0, 0); ([], 0, 100)].
Proof.
  intros w this steps.
  split; [reflexivity |]. split; [reflexivity |].
  exact (counters_reset_together true steps this w eq_refl eq_refl).
Defined.

(** ** A thread of the scheduler *)

Lemma GCData_OnSafePoint_effect (allocatedBytes safePointsCounter : Z) (w w' : World) :
  GCData_OnSafePoint allocatedBytes safePointsCounter w = Ok tt w' ->
  w' = w
  \/ exists f : nat,
       GCData.scheduleGC_ (gcData w) = Some f
       /\ w' = record_call (CallScheduleGC f) w.
Proof.
  unfold GCData_OnSafePoint.
  destruct (shouldSchedule allocatedBytes w).
  - destruct (GCData.scheduleGC_ (gcData w)) as [f |] eqn:Hf; cbn.
    + intros H. injection H as <-. right. exists f. split; reflexivity.
    + discriminate.
  - intros H. injection H as <-. now left.
Qed.

(** What a call on a [ThreadData] bound to the decision state can do to the
    shared objects: nothing, or one call of the bound trigger callback. *)
Lemma step_effect (gcAggressive : bool) (s : Step) (this this' : ThreadData.t)
      (w w' : World) :
  ThreadData.onSafePoint_ this = GCData_OnSafePoint ->
  step gcAggressive s this w = Ok this' w' ->
  ThreadData.onSafePoint_ this' = GCData_OnSafePoint
  /\ (w' = w
      \/ exists f : nat,
           GCData.scheduleGC_ (gcData w) = Some f
           /\ w' = record_call (CallScheduleGC f) w).
Proof.
  intros Hcb Hstep.
  assert (Hslow : forall that : ThreadData.t,
             ThreadData.onSafePoint_ that = GCData_OnSafePoint ->
             ThreadData.OnSafePointSlowPath that w = Ok this' w' ->
             ThreadData.onSafePoint_ this' = GCData_OnSafePoint
             /\ (w' = w
                 \/ exists f : nat,
                      GCData.scheduleGC_ (gcData w) = Some f
                      /\ w' = record_call (CallScheduleGC f) w)).
  { intros that Hthat H. unfold ThreadData.OnSafePointSlowPath, bind in H.
    rewrite Hthat in H.
    destruct (GCData_OnSafePoint (ThreadData.allocatedBytes_ that)
                                 (ThreadData.safePointsCounter_ that) w)
      as [[] w1 | message] eqn:Hr; [| discriminate].
    injection H as <- <-. split; [exact Hthat |].
    exact (GCData_OnSafePoint_effect _ _ _ _ Hr). }
  destruct s as [weight | size |]; cbn [step] in Hstep.
  - unfold ThreadData.OnSafePointRegular in Hstep. destruct gcAggressive.
    + destruct (ThreadData.safePointsCounter_ (ThreadData.add_safePointsCounter_ weight this)
                <? ThreadData.safePointsCounterThreshold_
                     (ThreadData.add_safePointsCounter_ weight this)).
      * injection Hstep as <- <-. split; [exact Hcb | now left].
      * exact (Hslow (ThreadData.add_safePointsCounter_ weight this) Hcb Hstep).
    + injection Hstep as <- <-. split; [exact Hcb | now left].
  - unfold ThreadData.OnSafePointAllocation in Hstep.
    destruct (ThreadData.allocatedBytes_ (ThreadData.add_allocatedBytes_ size this)
              <? ThreadData.allocatedBytesThreshold_
                   (ThreadData.add_allocatedBytes_ size this)).
    + injection Hstep as <- <-. split; [exact Hcb | now left].
    + exact (Hslow (ThreadData.add_allocatedBytes_ size this) Hcb Hstep).
  - injection Hstep as <- <-. split; [exact Hcb | now left].
Qed.

(** With the trigger callback bound, a call on a [ThreadData] returns. *)
Lemma step_returns_when_bound (gcAggressive : bool) (s : Step) (this : ThreadData.t)
      (w : World) (f : nat) :
  ThreadData.onSafePoint_ this = GCData_OnSafePoint ->
  GCData.scheduleGC_ (gcData w) = Some f ->
  exists (this' : ThreadData.t) (w' : World), step gcAggressive s this w = Ok this' w'.
Proof.
  intros Hcb Hf.
  assert (Hslow : forall that : ThreadData.t,
             ThreadData.onSafePoint_ that = GCData_OnSafePoint ->
             exists (this' : ThreadData.t) (w' : World),
               ThreadData.OnSafePointSlowPath that w = Ok this' w').
  { intros that Hthat. unfold ThreadData.OnSafePointSlowPath, bind.
    rewrite Hthat, (GCData_OnSafePoint_bound f _ _ w Hf).
    do 2 eexists. reflexivity. }
  destruct s as [weight | size |]; cbn [step].
  - unfold ThreadData.OnSafePointRegular. destruct gcAggressive.
    + destruct (ThreadData.safePointsCounter_ (ThreadData.add_safePointsCounter_ weight this)
                <? ThreadData.safePointsCounterThreshold_
                     (ThreadData.add_safePointsCounter_ weight this)).
      * do 2 eexists. reflexivity.
      * exact (Hslow (ThreadData.add_safePointsCounter_ weight this) Hcb).
    + do 2 eexists. reflexivity.
  - unfold ThreadData.OnSafePointAllocation.
    destruct (ThreadData.allocatedBytes_ (ThreadData.add_allocatedBytes_ size this)
              <? ThreadData.allocatedBytesThreshold_
                   (ThreadData.add_allocatedBytes_ size this)).
    + do 2 eexists. reflexivity.
    + exact (Hslow (ThreadData.add_allocatedBytes_ size this) Hcb).
  - do 2 eexists. reflexivity.
Qed.

(** X3: once the trigger callback [f] is bound in the decision state, no
    sequence of calls on a [ThreadData] made by [GCScheduler::NewThreadData]
    can terminate the process, in either build and whatever the sizes and
    weights; each call makes no call at all or exactly one call of [f], and
    leaves the decision state as it was. *)
Theorem bound_thread_calls_never_fatal :
  forall (gcAggressive : bool) (steps : list Step) (this : ThreadData.t)
         (w : World) (f : nat),
    ThreadData.onSafePoint_ this = GCData_OnSafePoint ->
    GCData.scheduleGC_ (gcData w) = Some f ->
    exists (results : list (list Call * ThreadData.t)) (w' : World),
      run gcAggressive steps this w = Ok results w'
      /\ gcData w' = gcData w
      /\ Forall (fun r => fst r = [] \/ fst r = [CallScheduleGC f]) results.
Proof.
  intros gcAggressive steps.
  induction steps as [| s rest IH]; intros this w f Hcb Hf.
  - exists [], w. repeat split. constructor.
  - destruct (step_returns_when_bound gcAggressive s this w f Hcb Hf)
      as (this1 & w1 & Hstep).
    destruct (step_effect gcAggressive s this this1 w w1 Hcb Hstep)
      as [Hcb1 [-> | (g & Hg & ->)]].
    + destruct (IH this1 w f Hcb1 Hf) as (rs & w' & Hrun & Hgc & Hall).
      exists (([], this1) :: rs), w'. split; [| split; [exact Hgc |]].
      * apply run_cons_ok with (w1 := w); [| exact Hrun].
        apply made_by_none; [exact Hstep | reflexivity].
      * constructor; [now left | exact Hall].
    + assert (g = f) by congruence. subst g.
      destruct (IH this1 (record_call (CallScheduleGC f) w) f Hcb1 Hf)
        as (rs & w' & Hrun & Hgc & Hall).
      exists (([CallScheduleGC f], this1) :: rs), w'. split; [| split; [exact Hgc |]].
      * apply run_cons_ok with (w1 := record_call (CallScheduleGC f) w); [| exact Hrun].
        apply made_by_one; [exact Hstep | reflexivity].
      * constructor; [now right | exact Hall].
Qed.

Lemma bound_thread_calls_never_fatal_witness :
  let w := example_world 2000 in
  let this := cleared (ThreadData.mk GCData_OnSafePoint 0 0 0 0) w in
  ThreadData.onSafePoint_ this = GCData_OnSafePoint
  /\ GCData.scheduleGC_ (gcData w) = Some 7%nat
  /\ exists (results : list (list Call * ThreadData.t)) (w' : World),
       run false [Allocation (11 * MiB); Regular 1; Allocation SIZE_MAX] this w
         = Ok results w'
       /\ gcData w' = gcData w
       /\ Forall (fun r => fst r = [] \/ fst r = [CallScheduleGC 7%nat]) results.
Proof.
  intros w this.
  split; [reflexivity |]. split; [reflexivity |].
  exact (bound_thread_calls_never_fatal false
           [Allocation (11 * MiB); Regular 1; Allocation SIZE_MAX] this w 7%nat
           eq_refl eq_refl).
Defined.

(** ** A build without aggressive counting *)

Lemma step_uncounted (s : Step) (this : ThreadData.t) (w : World) :
  ThreadData.onSafePoint_ this = recordOnSafePoint ->
  ThreadData.safePointsCounter_ this = 0 ->
  exists (this1 : ThreadData.t) (w1 : World) (made : list Call),
    made_by (step false s this) w = Ok (this1, made) w1
    /\ ThreadData.onSafePoint_ this1 = recordOnSafePoint
    /\ ThreadData.safePointsCounter_ this1 = 0
    /\ (made = [] \/ exists bytes : Z, made = [CallOnSafePoint bytes 0]).
Proof.
  intros Hcb Hzero. destruct s as [weight | size |]; cbn [step].
  - exists this, w, []. split; [apply made_by_none; reflexivity |].
    repeat split; try assumption. now left.
  - unfold ThreadData.OnSafePointAllocation.
    destruct (ThreadData.allocatedBytes_ (ThreadData.add_allocatedBytes_ size this)
              <? ThreadData.allocatedBytesThreshold_
                   (ThreadData.add_allocatedBytes_ size this)).
    + exists (ThreadData.add_allocatedBytes_ size this), w, [].
      split; [apply made_by_none; reflexivity |].
      repeat split; try assumption. now left.
    + do 3 eexists. split.
      * apply made_by_one;
          [apply (OnSafePointSlowPath_recorded (ThreadData.add_allocatedBytes_ size this) w Hcb)
          | reflexivity].
      * split; [exact Hcb |]. split; [reflexivity |].
        right. eexists. cbn [ThreadData.add_allocatedBytes_ ThreadData.safePointsCounter_].
        rewrite Hzero. reflexivity.
  - exists (cleared this w), w, []. split; [apply made_by_none; reflexivity |].
    repeat split; try assumption. now left.
Qed.

(** X4: in a build without aggressive counting the weighted counter of a
    thread never leaves zero: whatever calls are made on a [ThreadData] whose
    weighted counter is zero, as it is after construction, the counter is
    zero after each of them and every report carries a weighted count of
    zero. *)
Theorem weighted_count_is_zero_without_aggressive :
  forall (steps : list Step) (this : ThreadData.t) (w : World),
    ThreadData.onSafePoint_ this = recordOnSafePoint ->
    ThreadData.safePointsCounter_ this = 0 ->
    exists (results : list (list Call * ThreadData.t)) (w' : World),
      run false steps this w = Ok results w'
      /\ Forall (fun r =>
                   ThreadData.safePointsCounter_ (snd r) = 0
                   /\ (fst r = [] \/ exists bytes : Z, fst r = [CallOnSafePoint bytes 0]))
                results.
Proof.
  induction steps as [| s rest IH]; intros this w Hcb Hzero.
  - exists [], w. split; [reflexivity | constructor].
  - destruct (step_uncounted s this w Hcb Hzero)
      as (this1 & w1 & made & Hstep & Hcb1 & Hzero1 & Hmade).
    destruct (IH this1 w1 Hcb1 Hzero1) as (rs & w' & Hrun & Hall).
    exists ((made, this1) :: rs), w'. split.
    + exact (run_cons_ok false s rest this this1 w w1 w' made rs Hstep Hrun).
    + constructor; [split; assumption | exact Hall].
Qed.

Lemma weighted_count_is_zero_without_aggressive_witness :
  let w := GCScheduler.new false 0 in
  let this := cleared (ThreadData.mk recordOnSafePoint 0 0 0 0) w in
  ThreadData.onSafePoint_ this = recordOnSafePoint
  /\ ThreadData.safePointsCounter_ this = 0
  /\ exists (results : list (list Call * ThreadData.t)) (w' : World),
       run false [Regular 100000; Allocation (10 * MiB); Regular 7] this w
         = Ok results w'
       /\ Forall (fun r =>
                    ThreadData.safePointsCounter_ (snd r) = 0
                    /\ (fst r = [] \/ exists bytes : Z, fst r = [CallOnSafePoint bytes 0]))
                 results.
Proof.
  intros w this.
  split; [reflexivity |]. split; [reflexivity |].
  exact (weighted_count_is_zero_without_aggressive
           [Regular 100000; Allocation (10 * MiB); Regular 7] this w eq_refl eq_refl).
Defined.

(** * Further properties of the decision state *)

Lemma elapsedNs_range (w : World) : is_uint64_t (elapsedNs w).
Proof.
  unfold is_uint64_t, elapsedNs, wrap_uint64_t, UINT64_MODULUS.
  apply Z.mod_pos_bound. lia.
Qed.

(** X5: while the cooldown is what the constructor of the configuration sets
    in an aggressive build, every report to the decision state calls the
    trigger callback, whatever the reported bytes, the byte threshold, the
    clock and the time of the last collection. *)
Theorem aggressive_cooldown_always_schedules :
  forall (f : nat) (reportedAllocatedBytes reportedWeightedCount : Z) (w : World),
    cooldownThresholdNs (config w) = cooldownThresholdNs (GCSchedulerConfig_new true) ->
    GCData.scheduleGC_ (gcData w) = Some f ->
    made_by (GCData_OnSafePoint reportedAllocatedBytes reportedWeightedCount) w =
      Ok (tt, [CallScheduleGC f]) (record_call (CallScheduleGC f) w).
Proof.
  intros f b c w Hcool Hf.
  rewrite (GCData_OnSafePoint_made f b c w Hf).
  assert (Hfire : shouldSchedule b w = true).
  { unfold shouldSchedule. rewrite Hcool. cbn [GCSchedulerConfig_new cooldownThresholdNs].
    pose proof (elapsedNs_range w) as [Hlo _].
    replace (0 <=? elapsedNs w) with true by (symmetry; apply Z.leb_le; exact Hlo).
    apply orb_true_r. }
  rewrite Hfire. reflexivity.
Qed.

Lemma aggressive_cooldown_always_schedules_witness :
  let w := set_gcData {| GCData.timeOfLastGcNs_ := 500; GCData.scheduleGC_ := Some 7%nat |}
                      (GCScheduler.new true 500) in
  cooldownThresholdNs (config w) = cooldownThresholdNs (GCSchedulerConfig_new true)
  /\ GCData.scheduleGC_ (gcData w) = Some 7%nat
  /\ made_by (GCData_OnSafePoint 0 0) w =
     Ok (tt, [CallScheduleGC 7%nat]) (record_call (CallScheduleGC 7%nat) w).
Proof.
  intros w. split; [reflexivity |]. split; [reflexivity |].
  exact (aggressive_cooldown_always_schedules 7%nat 0 0 w eq_refl eq_refl).
Defined.

(** X6: when the time source answers less than the time of the last
    collection, the unsigned subtraction wraps: the elapsed time is taken to
    be [2^64] minus the step back, and a report of any size calls the
    trigger callback as soon as the cooldown does not exceed that. *)
Theorem time_going_back_wraps_elapsed :
  forall (f : nat) (reportedAllocatedBytes reportedWeightedCount : Z) (w : World),
    is_uint64_t (timeNanos w) ->
    is_uint64_t (GCData.timeOfLastGcNs_ (gcData w)) ->
    timeNanos w < GCData.timeOfLastGcNs_ (gcData w) ->
    elapsedNs w =
      UINT64_MODULUS - (GCData.timeOfLastGcNs_ (gcData w) - timeNanos w)
    /\ (cooldownThresholdNs (config w)
        <= UINT64_MODULUS - (GCData.timeOfLastGcNs_ (gcData w) - timeNanos w) ->
        GCData.scheduleGC_ (gcData w) = Some f ->
        made_by (GCData_OnSafePoint reportedAllocatedBytes reportedWeightedCount) w =
          Ok (tt, [CallScheduleGC f]) (record_call (CallScheduleGC f) w)).
Proof.
  intros f b c w Hn Hl Hlt.
  assert (He : elapsedNs w =
               UINT64_MODULUS - (GCData.timeOfLastGcNs_ (gcData w) - timeNanos w)).
  { unfold elapsedNs, wrap_uint64_t. unfold is_uint64_t in Hn, Hl.
    symmetry. apply (Z.mod_unique _ _ (-1)); [left | ]; unfold UINT64_MODULUS in *; lia. }
  split; [exact He |].
  intros Hcool Hf.
  rewrite (GCData_OnSafePoint_made f b c w Hf).
  assert (Hfire : shouldSchedule b w = true).
  { unfold shouldSchedule. rewrite He.
    replace (cooldownThresholdNs (config w)
             <=? UINT64_MODULUS - (GCData.timeOfLastGcNs_ (gcData w) - timeNanos w))
      with true by (symmetry; apply Z.leb_le; exact Hcool).
    apply orb_true_r. }
  rewrite Hfire. reflexivity.
Qed.

Lemma time_going_back_wraps_elapsed_witness :
  let w := example_world 999 in
  is_uint64_t (timeNanos w)
  /\ is_uint64_t (GCData.timeOfLastGcNs_ (gcData w))
  /\ timeNanos w < GCData.timeOfLastGcNs_ (gcData w)
  /\ elapsedNs w = UINT64_MODULUS - 1
  /\ made_by (GCData_OnSafePoint 0 0) w =
     Ok (tt, [CallScheduleGC 7%nat]) (record_call (CallScheduleGC 7%nat) w).
Proof.
  intros w.
  assert (Hn : is_uint64_t (timeNanos w)) by (unfold is_uint64_t, UINT64_MODULUS; cbn; lia).
  assert (Hl : is_uint64_t (GCData.timeOfLastGcNs_ (gcData w)))
    by (unfold is_uint64_t, UINT64_MODULUS; cbn; lia).
  assert (Hlt : timeNanos w < GCData.timeOfLastGcNs_ (gcData w)) by (cbn; lia).
  split; [exact Hn |]. split; [exact Hl |]. split; [exact Hlt |].
  destruct (time_going_back_wraps_elapsed 7%nat 0 0 w Hn Hl Hlt) as [He Hcall].
  split; [exact He |].
  apply Hcall; [| reflexivity]. unfold UINT64_MODULUS. cbn. lia.
Defined.

(** X7: when an allocation brings the byte counter of a [ThreadData] made by
    [GCScheduler::NewThreadData] to its snapshot or beyond, the total is
    reported and both counters restart from zero whether or not a collection
    is requested.  One is requested, by exactly one call of the bound
    callback, exactly when the total is strictly above the live byte
    threshold or the cooldown has elapsed; so a report that finds the live
    threshold raised and the cooldown running requests nothing and the
    reported bytes are counted no more. *)
Theorem allocation_report_restarts_counters :
  forall (size : Z) (this : ThreadData.t) (w : World) (f : nat),
    ThreadData.onSafePoint_ this = GCData_OnSafePoint ->
    GCData.scheduleGC_ (gcData w) = Some f ->
    is_size_t (ThreadData.allocatedBytes_ this + size) ->
    ThreadData.allocatedBytesThreshold_ this <= ThreadData.allocatedBytes_ this + size ->
    let fire :=
      (allocationThresholdBytes (config w) <? ThreadData.allocatedBytes_ this + size)
      || (cooldownThresholdNs (config w) <=? elapsedNs w) in
    made_by (ThreadData.OnSafePointAllocation size this) w =
      Ok (cleared this w, if fire then [CallScheduleGC f] else [])
         (if fire then record_call (CallScheduleGC f) w else w).
Proof.
  intros size this w f Hcb Hf Hsz Hreach fire.
  assert (Hrun : ThreadData.OnSafePointAllocation size this w =
                 Ok (cleared this w) (if fire then record_call (CallScheduleGC f) w else w)).
  { unfold ThreadData.OnSafePointAllocation.
    cbn [ThreadData.add_allocatedBytes_ ThreadData.allocatedBytes_
         ThreadData.allocatedBytesThreshold_].
    rewrite (wrap_size_t_small _ Hsz).
    replace (ThreadData.allocatedBytes_ this + size <? ThreadData.allocatedBytesThreshold_ this)
      with false by (symmetry; apply Z.ltb_ge; exact Hreach).
    unfold ThreadData.OnSafePointSlowPath, bind.
    cbn [ThreadData.onSafePoint_ ThreadData.allocatedBytes_ ThreadData.safePointsCounter_
         ThreadData.add_allocatedBytes_ ThreadData.add_safePointsCounter_].
    rewrite Hcb, (wrap_size_t_small _ Hsz), (GCData_OnSafePoint_bound f _ _ w Hf).
    fold fire. unfold shouldSchedule. fold fire.
    destruct fire; reflexivity. }
  destruct fire.
  - apply made_by_one; [exact Hrun | reflexivity].
  - apply made_by_none; [exact Hrun | reflexivity].
Qed.

Lemma allocation_report_restarts_counters_witness :
  let raised := {| threshold := 100000;
                   allocationThresholdBytes := 20 * MiB;
                   cooldownThresholdNs := 200 * msNs;
                   autoTune := false |} in
  let w := set_config raised (example_world 2000) in
  let this := {| ThreadData.onSafePoint_ := GCData_OnSafePoint;
                 ThreadData.allocatedBytes_ := 9 * MiB;
                 ThreadData.allocatedBytesThreshold_ := 10 * MiB;
                 ThreadData.safePointsCounter_ := 0;
                 ThreadData.safePointsCounterThreshold_ := 100000 |} in
  ThreadData.onSafePoint_ this = GCData_OnSafePoint
  /\ GCData.scheduleGC_ (gcData w) = Some 7%nat
  /\ is_size_t (ThreadData.allocatedBytes_ this + 2 * MiB)
  /\ ThreadData.allocatedBytesThreshold_ this <= ThreadData.allocatedBytes_ this + 2 * MiB
  /\ made_by (ThreadData.OnSafePointAllocation (2 * MiB) this) w =
     Ok (cleared this w, []) w.
Proof.
  intros raised w this.
  assert (Hsz : is_size_t (ThreadData.allocatedBytes_ this + 2 * MiB))
    by (unfold is_size_t, SIZE_MODULUS; cbn; lia).
  assert (Hreach : ThreadData.allocatedBytesThreshold_ this
                   <= ThreadData.allocatedBytes_ this + 2 * MiB) by (cbn; lia).
  split; [reflexivity |]. split; [reflexivity |]. split; [exact Hsz |].
  split; [exact Hreach |].
  exact (allocation_report_restarts_counters (2 * MiB) this w 7%nat
           eq_refl eq_refl Hsz Hreach).
Defined.

(** X8: in an aggressive build, a report caused by the weighted counter of a
    [ThreadData] made by [GCScheduler::NewThreadData] carries a byte count
    that is below the byte snapshot.  Unless the live byte threshold has been
    lowered below the snapshot, such a report requests a collection exactly
    when the cooldown has elapsed. *)
Theorem safepoint_report_schedules_by_cooldown :
  forall (weight : Z) (this : ThreadData.t) (w : World) (f : nat),
    ThreadData.onSafePoint_ this = GCData_OnSafePoint ->
    GCData.scheduleGC_ (gcData w) = Some f ->
    counters_below this ->
    ThreadData.allocatedBytesThreshold_ this <= allocationThresholdBytes (config w) ->
    0 <= allocationThresholdBytes (config w) ->
    ThreadData.safePointsCounterThreshold_ this
    <= wrap_size_t (ThreadData.safePointsCounter_ this + weight) ->
    made_by (ThreadData.OnSafePointRegular true weight this) w =
      Ok (cleared this w,
          if cooldownThresholdNs (config w) <=? elapsedNs w
          then [CallScheduleGC f] else [])
         (if cooldownThresholdNs (config w) <=? elapsedNs w
          then record_call (CallScheduleGC f) w else w).
Proof.
  intros weight this w f Hcb Hf [[Hrange Hbytes] _] Hlive Hpos Hreach.
  assert (Hnot : (allocationThresholdBytes (config w) <? ThreadData.allocatedBytes_ this)
                 = false).
  { apply Z.ltb_ge. destruct Hbytes as [-> | Hlt]; lia. }
  assert (Hrun : ThreadData.OnSafePointRegular true weight this w =
                 Ok (cleared this w)
                    (if cooldownThresholdNs (config w) <=? elapsedNs w
                     then record_call (CallScheduleGC f) w else w)).
  { unfold ThreadData.OnSafePointRegular.
    cbn [ThreadData.add_safePointsCounter_ ThreadData.safePointsCounter_
         ThreadData.safePointsCounterThreshold_].
    replace (wrap_size_t (ThreadData.safePointsCounter_ this + weight)
             <? ThreadData.safePointsCounterThreshold_ this)
      with false by (symmetry; apply Z.ltb_ge; exact Hreach).
    unfold ThreadData.OnSafePointSlowPath, bind.
    cbn [ThreadData.onSafePoint_ ThreadData.allocatedBytes_ ThreadData.safePointsCounter_
         ThreadData.add_allocatedBytes_ ThreadData.add_safePointsCounter_].
    rewrite Hcb, (GCData_OnSafePoint_bound f _ _ w Hf).
    unfold shouldSchedule. rewrite Hnot. cbn [orb].
    destruct (cooldownThresholdNs (config w) <=? elapsedNs w); reflexivity. }
  destruct (cooldownThresholdNs (config w) <=? elapsedNs w).
  - apply made_by_one; [exact Hrun | reflexivity].
  - apply made_by_none; [exact Hrun | reflexivity].
Qed.

Lemma safepoint_report_schedules_by_cooldown_witness :
  let w := example_world 2000 in
  let this := {| ThreadData.onSafePoint_ := GCData_OnSafePoint;
                 ThreadData.allocatedBytes_ := 9 * MiB;
                 ThreadData.allocatedBytesThreshold_ := 10 * MiB;
                 ThreadData.safePointsCounter_ := 99999;
                 ThreadData.safePointsCounterThreshold_ := 100000 |} in
  counters_below this
  /\ made_by (ThreadData.OnSafePointRegular true 1 this) w = Ok (cleared this w, []) w.
Proof.
  intros w this.
  assert (Hinv : counters_below this).
  { unfold counters_below, counter_below, is_size_t, SIZE_MODULUS. cbn. lia. }
  split; [exact Hinv |].
  refine (safepoint_report_schedules_by_cooldown 1 this w 7%nat eq_refl eq_refl Hinv _ _ _).
  - cbn. lia.
  - cbn. lia.
  - vm_compute. discriminate.
Defined.

(** * Properties of the scheduler as a whole *)

Lemma only_calls_empty (l : list Call) : only_calls None l -> l = [].
Proof.
  unfold only_calls. intros H. destruct l as [| c l]; [reflexivity |].
  inversion H as [| ? ? (callee & Hnone & _) _]. discriminate.
Qed.

Lemma callback_discipline_new (gcAggressive : bool) (now : Z) :
  callback_discipline (GCScheduler.new gcAggressive now).
Proof. split; [reflexivity | constructor]. Qed.

Lemma callback_discipline_record (f : nat) (w : World) :
  callback_discipline w ->
  GCData.scheduleGC_ (gcData w) = Some f ->
  callback_discipline (record_call (CallScheduleGC f) w).
Proof.
  intros [Hsame Hcalls] Hf. split; [exact Hsame |].
  constructor; [| exact Hcalls].
  exists f. split; [| reflexivity]. cbn. rewrite <- Hsame. exact Hf.
Qed.

Lemma system_op_keeps_discipline (gcAggressive : bool) (op : SystemOp)
      (this this' : ThreadData.t) (w w' : World) :
  ThreadData.onSafePoint_ this = GCData_OnSafePoint ->
  callback_discipline w ->
  system_op gcAggressive op this w = Ok this' w' ->
  ThreadData.onSafePoint_ this' = GCData_OnSafePoint
  /\ callback_discipline w'
  /\ (forall f : nat, scheduleGC_ w = Some f -> scheduleGC_ w' = Some f).
Proof.
  intros Hcb Hinv Hop. destruct op as [g | s | b c | | now | cfg]; cbn [system_op] in Hop.
  - unfold bind, GCScheduler.SetScheduleGC, RuntimeAssert, bind, ret in Hop.
    destruct g as [f |]; cbn in Hop; [| discriminate].
    destruct (scheduleGC_ w) as [old |] eqn:Hold; cbn in Hop; [discriminate |].
    injection Hop as <- <-. split; [exact Hcb |]. split.
    + split; [reflexivity |]. destruct Hinv as [_ Hcalls]. rewrite Hold in Hcalls.
      cbn. rewrite (only_calls_empty _ Hcalls). constructor.
    + intros f' Hf'. discriminate.
  - destruct (step_effect gcAggressive s this this' w w' Hcb Hop)
      as [Hcb' [-> | (f & Hf & ->)]].
    + split; [exact Hcb' |]. split; [exact Hinv |]. intros f Hf. exact Hf.
    + split; [exact Hcb' |]. split; [exact (callback_discipline_record f w Hinv Hf) |].
      intros f' Hf'. exact Hf'.
  - unfold bind, ret in Hop.
    destruct (GCData_OnSafePoint b c w) as [[] w1 | message] eqn:Hr; [| discriminate].
    injection Hop as <- <-.
    destruct (GCData_OnSafePoint_effect b c w w1 Hr) as [-> | (f & Hf & ->)].
    + split; [exact Hcb |]. split; [exact Hinv |]. intros f Hf. exact Hf.
    + split; [exact Hcb |]. split; [exact (callback_discipline_record f w Hinv Hf) |].
      intros f' Hf'. exact Hf'.
  - cbn in Hop.
    injection Hop as <- <-. split; [exact Hcb |]. split; [exact Hinv |].
    intros f Hf. exact Hf.
  - injection Hop as <- <-. split; [exact Hcb |]. split; [exact Hinv |].
    intros f Hf. exact Hf.
  - injection Hop as <- <-. split; [exact Hcb |]. split; [exact Hinv |].
    intros f Hf. exact Hf.
Qed.

(** X9: as long as the callback is bound through [GCScheduler::SetScheduleGC]
    only, the scheduler and its decision state hold the same callback, a
    callback once bound is never replaced, and the only calls the scheduler
    ever makes are calls of that callback; in particular it calls nothing
    before a callback is bound.  This holds from construction on, through
    binding attempts, calls on a thread made by [NewThreadData], direct
    reports, completed collections, the passing of time and stores to the
    configuration, in whatever order they return. *)
Theorem scheduler_calls_only_the_bound_callback :
  (forall (gcAggressive : bool) (now : Z),
      callback_discipline (GCScheduler.new gcAggressive now)
      /\ exists this : ThreadData.t,
           GCScheduler.NewThreadData (GCScheduler.new gcAggressive now)
             = Ok this (GCScheduler.new gcAggressive now)
           /\ ThreadData.onSafePoint_ this = GCData_OnSafePoint)
  /\ (forall (gcAggressive : bool) (ops : list SystemOp) (this this' : ThreadData.t)
             (w w' : World),
         ThreadData.onSafePoint_ this = GCData_OnSafePoint ->
         callback_discipline w ->
         run_system gcAggressive ops this w = Ok this' w' ->
         callback_discipline w'
         /\ (forall f : nat, scheduleGC_ w = Some f -> scheduleGC_ w' = Some f)
         /\ (scheduleGC_ w' = None -> calls w' = [])).
Proof.
  split.
  - intros gcAggressive now. split; [apply callback_discipline_new |].
    eexists. split; reflexivity.
  - intros gcAggressive ops.
    induction ops as [| op rest IH]; intros this this' w w' Hcb Hinv Hrun.
    + injection Hrun as <- <-. split; [exact Hinv |]. split; [auto |].
      intros Hnone. destruct Hinv as [_ Hcalls]. rewrite Hnone in Hcalls.
      exact (only_calls_empty _ Hcalls).
    + cbn [run_system] in Hrun. unfold bind in Hrun.
      destruct (system_op gcAggressive op this w) as [this1 w1 | message] eqn:Hop;
        [| discriminate].
      destruct (system_op_keeps_discipline gcAggressive op this this1 w w1 Hcb Hinv Hop)
        as (Hcb1 & Hinv1 & Hkeep1).
      destruct (IH this1 this' w1 w' Hcb1 Hinv1 Hrun) as (Hinv' & Hkeep' & Hnone').
      split; [exact Hinv' |]. split; [| exact Hnone'].
      intros f Hf. apply Hkeep', Hkeep1, Hf.
Qed.

Lemma scheduler_calls_only_the_bound_callback_witness :
  let w := GCScheduler.new true 0 in
  let this := cleared (ThreadData.mk GCData_OnSafePoint 0 0 0 0) w in
  let ops := [ThreadStep (Allocation 5); BindScheduleGC (Some 7%nat);
              ThreadStep (Allocation 10000); TimeSource 50; PerformFullGC;
              DirectReport 0 0] in
  ThreadData.onSafePoint_ this = GCData_OnSafePoint
  /\ callback_discipline w
  /\ exists (this' : ThreadData.t) (w' : World),
       run_system true ops this w = Ok this' w'
       /\ calls w' = [CallScheduleGC 7%nat; CallScheduleGC 7%nat]
       /\ callback_discipline w'.
Proof.
  intros w this ops.
  pose proof (proj1 (proj1 scheduler_calls_only_the_bound_callback true 0)) as Hinv.
  split; [reflexivity |]. split; [exact Hinv |].
  eexists. eexists.
  assert (Hrun : run_system true ops this w = Ok _ _) by reflexivity.
  split; [exact Hrun |]. split; [reflexivity |].
  exact (proj1 (proj2 scheduler_calls_only_the_bound_callback true ops this _ w _
                      eq_refl Hinv Hrun)).
Defined.

Lemma system_op_times (gcAggressive : bool) (op : SystemOp)
      (this this' : ThreadData.t) (w w' : World) :
  ThreadData.onSafePoint_ this = GCData_OnSafePoint ->
  system_op gcAggressive op this w = Ok this' w' ->
  ThreadData.onSafePoint_ this' = GCData_OnSafePoint
  /\ timeNanos w' = match op with TimeSource now => now | _ => timeNanos w end
  /\ GCData.timeOfLastGcNs_ (gcData w') =
     match op with
     | PerformFullGC => timeNanos w
     | _ => GCData.timeOfLastGcNs_ (gcData w)
     end.
Proof.
  intros Hcb Hop. destruct op as [g | s | b c | | now | cfg]; cbn [system_op] in Hop.
  - unfold bind, GCScheduler.SetScheduleGC, RuntimeAssert, bind, ret in Hop.
    destruct g as [f |]; cbn in Hop; [| discriminate].
    destruct (scheduleGC_ w) as [old |]; cbn in Hop; [discriminate |].
    injection Hop as <- <-. repeat split. exact Hcb.
  - destruct (step_effect gcAggressive s this this' w w' Hcb Hop)
      as [Hcb' [-> | (f & Hf & ->)]]; repeat split; exact Hcb'.
  - unfold bind, ret in Hop.
    destruct (GCData_OnSafePoint b c w) as [[] w1 | message] eqn:Hr; [| discriminate].
    injection Hop as <- <-.
    destruct (GCData_OnSafePoint_effect b c w w1 Hr) as [-> | (f & Hf & ->)];
      repeat split; exact Hcb.
  - cbn in Hop. injection Hop as <- <-. repeat split. exact Hcb.
  - injection Hop as <- <-. repeat split. exact Hcb.
  - injection Hop as <- <-. repeat split. exact Hcb.
Qed.

(** X10: with a time source that never goes back, the time of the last
    collection never decreases and never runs ahead of the clock, whatever the
    scheduler and a thread of it are made to do; so the elapsed time that
    [GCData::OnSafePoint] computes is then the plain difference between the
    clock and the time of the last collection, free of wrap-around. *)
Theorem last_collection_time_follows_clock :
  forall (gcAggressive : bool) (ops : list SystemOp) (this this' : ThreadData.t)
         (w w' : World),
    ThreadData.onSafePoint_ this = GCData_OnSafePoint ->
    GCData.timeOfLastGcNs_ (gcData w) <= timeNanos w ->
    time_never_goes_back (timeNanos w) ops = true ->
    run_system gcAggressive ops this w = Ok this' w' ->
    timeNanos w <= timeNanos w'
    /\ GCData.timeOfLastGcNs_ (gcData w) <= GCData.timeOfLastGcNs_ (gcData w')
    /\ GCData.timeOfLastGcNs_ (gcData w') <= timeNanos w'
    /\ (0 <= GCData.timeOfLastGcNs_ (gcData w) ->
        is_uint64_t (timeNanos w') ->
        elapsedNs w' = timeNanos w' - GCData.timeOfLastGcNs_ (gcData w')).
Proof.
  intros gcAggressive ops.
  assert (Hmain : forall (this this' : ThreadData.t) (w w' : World),
             ThreadData.onSafePoint_ this = GCData_OnSafePoint ->
             GCData.timeOfLastGcNs_ (gcData w) <= timeNanos w ->
             time_never_goes_back (timeNanos w) ops = true ->
             run_system gcAggressive ops this w = Ok this' w' ->
             timeNanos w <= timeNanos w'
             /\ GCData.timeOfLastGcNs_ (gcData w) <= GCData.timeOfLastGcNs_ (gcData w')
             /\ GCData.timeOfLastGcNs_ (gcData w') <= timeNanos w').
  { induction ops as [| op rest IH]; intros this this' w w' Hcb Hle Hmono Hrun.
    - injection Hrun as <- <-. lia.
    - cbn [run_system] in Hrun. unfold bind in Hrun.
      destruct (system_op gcAggressive op this w) as [this1 w1 | message] eqn:Hop;
        [| discriminate].
      destruct (system_op_times gcAggressive op this this1 w w1 Hcb Hop)
        as (Hcb1 & Hnow & Hlast).
      assert (Hstep : timeNanos w <= timeNanos w1
                      /\ GCData.timeOfLastGcNs_ (gcData w)
                         <= GCData.timeOfLastGcNs_ (gcData w1)
                      /\ GCData.timeOfLastGcNs_ (gcData w1) <= timeNanos w1
                      /\ time_never_goes_back (timeNanos w1) rest = true).
      { destruct op as [g | s | b c | | now | cfg]; cbn [time_never_goes_back] in Hmono;
          rewrite Hnow, Hlast; try (repeat split; (lia || exact Hmono)).
        apply andb_true_iff in Hmono as [Hge Hmono]. apply Z.leb_le in Hge.
        repeat split; (lia || exact Hmono). }
      destruct Hstep as (H1 & H2 & H3 & Hmono1).
      destruct (IH this1 this' w1 w' Hcb1 H3 Hmono1 Hrun) as (H4 & H5 & H6).
      lia. }
  intros this this' w w' Hcb Hle Hmono Hrun.
  destruct (Hmain this this' w w' Hcb Hle Hmono Hrun) as (H1 & H2 & H3).
  split; [exact H1 |]. split; [exact H2 |]. split; [exact H3 |].
  intros H0 Hrange. apply elapsedNs_monotonic; [| exact Hrange | exact H3].
  unfold is_uint64_t in *. lia.
Qed.

Lemma last_collection_time_follows_clock_witness :
  let w := GCScheduler.new false 100 in
  let this := cleared (ThreadData.mk GCData_OnSafePoint 0 0 0 0) w in
  let ops := [TimeSource 150; PerformFullGC; BindScheduleGC (Some 7%nat);
              TimeSource 150; ThreadStep (Allocation (11 * MiB)); TimeSource 400] in
  GCData.timeOfLastGcNs_ (gcData w) <= timeNanos w
  /\ time_never_goes_back (timeNanos w) ops = true
  /\ exists (this' : ThreadData.t) (w' : World),
       run_system false ops this w = Ok this' w'
       /\ GCData.timeOfLastGcNs_ (gcData w') = 150
       /\ timeNanos w' = 400
       /\ elapsedNs w' = timeNanos w' - GCData.timeOfLastGcNs_ (gcData w').
Proof.
  intros w this ops.
  assert (Hle : GCData.timeOfLastGcNs_ (gcData w) <= timeNanos w) by (cbn; lia).
  split; [exact Hle |]. split; [reflexivity |].
  eexists. eexists.
  assert (Hrun : run_system false ops this w = Ok _ _) by reflexivity.
  split; [exact Hrun |]. split; [reflexivity |]. split; [reflexivity |].
  refine (proj2 (proj2 (proj2 (last_collection_time_follows_clock false ops this _ w _
                                 eq_refl Hle eq_refl Hrun))) _ _).
  - cbn. lia.
  - unfold is_uint64_t, UINT64_MODULUS. cbn. lia.
Defined.

(** * The fast path of a thread *)

Lemma step_quiet (gcAggressive : bool) (s : Step) (this this1 : ThreadData.t)
      (w w1 : World) :
  ThreadData.onSafePoint_ this = recordOnSafePoint ->
  s <> StoppedForGC ->
  made_by (step gcAggressive s this) w = Ok (this1, []) w1 ->
  ThreadData.onSafePoint_ this1 = recordOnSafePoint
  /\ w1 = w
  /\ forall w2 : World, made_by (step gcAggressive s this) w2 = Ok (this1, []) w2.
Proof.
  intros Hcb Hs Hmade. destruct s as [weight | size |]; cbn [step] in *.
  - unfold ThreadData.OnSafePointRegular in *. destruct gcAggressive.
    + destruct (ThreadData.safePointsCounter_ (ThreadData.add_safePointsCounter_ weight this)
                <? ThreadData.safePointsCounterThreshold_
                     (ThreadData.add_safePointsCounter_ weight this)).
      * rewrite (made_by_none _ _ w w eq_refl eq_refl) in Hmade.
        injection Hmade as <- <-. split; [exact Hcb |]. split; [reflexivity |].
        intros w2. apply made_by_none; reflexivity.
      * rewrite (made_by_one _ _ _ w _
                   (OnSafePointSlowPath_recorded
                      (ThreadData.add_safePointsCounter_ weight this) w Hcb) eq_refl)
          in Hmade.
        discriminate.
    + rewrite (made_by_none _ _ w w eq_refl eq_refl) in Hmade.
      injection Hmade as <- <-. split; [exact Hcb |]. split; [reflexivity |].
      intros w2. apply made_by_none; reflexivity.
  - unfold ThreadData.OnSafePointAllocation in *.
    destruct (ThreadData.allocatedBytes_ (ThreadData.add_allocatedBytes_ size this)
              <? ThreadData.allocatedBytesThreshold_
                   (ThreadData.add_allocatedBytes_ size this)).
    + rewrite (made_by_none _ _ w w eq_refl eq_refl) in Hmade.
      injection Hmade as <- <-. split; [exact Hcb |]. split; [reflexivity |].
      intros w2. apply made_by_none; reflexivity.
    + rewrite (made_by_one _ _ _ w _
                 (OnSafePointSlowPath_recorded
                    (ThreadData.add_allocatedBytes_ size this) w Hcb) eq_refl)
        in Hmade.
      discriminate.
  - now elim Hs.
Qed.

(** X11: until it reports, a thread neither reads nor writes the shared
    objects.  If a sequence of [OnSafePointRegular] and
    [OnSafePointAllocation] calls makes no report, the same calls leave the
    same counters and make no report whatever the configuration, the clock and
    the decision state are, and they leave all of these untouched: a store to
    the configuration is not seen by a thread before its next reset. *)
Theorem calls_without_report_are_thread_local :
  forall (gcAggressive : bool) (steps : list Step) (this : ThreadData.t)
         (w w' : World) (results : list (list Call * ThreadData.t)),
    ThreadData.onSafePoint_ this = recordOnSafePoint ->
    Forall (fun s => s <> StoppedForGC) steps ->
    run gcAggressive steps this w = Ok results w' ->
    Forall (fun r => fst r = []) results ->
    w' = w
    /\ forall w2 : World, run gcAggressive steps this w2 = Ok results w2.
Proof.
  intros gcAggressive steps.
  induction steps as [| s rest IH]; intros this w w' results Hcb Hsteps Hrun Hquiet.
  - injection Hrun as <- <-. split; reflexivity.
  - apply run_cons_inv in Hrun as (this1 & w1 & made & rs & _ & Hmade & Hrest & ->).
    inversion Hquiet as [| ? ? Hhead Htail]; subst. cbn [fst] in Hhead. subst made.
    inversion Hsteps as [| ? ? Hs Hsrest]; subst.
    destruct (step_quiet gcAggressive s this this1 w w1 Hcb Hs Hmade)
      as (Hcb1 & -> & Hany).
    destruct (IH this1 w w' rs Hcb1 Hsrest Hrest Htail) as (-> & Hrestany).
    split; [reflexivity |]. intros w2.
    exact (run_cons_ok gcAggressive s rest this this1 w2 w2 w2 [] rs (Hany w2) (Hrestany w2)).
Qed.

Lemma calls_without_report_are_thread_local_witness :
  let w := GCScheduler.new true 0 in
  let this := cleared (ThreadData.mk recordOnSafePoint 0 0 0 0) w in
  let steps := [Regular 999; Allocation 9999] in
  let lowered := {| threshold := 1; allocationThresholdBytes := 1;
                    cooldownThresholdNs := 0; autoTune := true |} in
  let this1 := ThreadData.add_safePointsCounter_ 999 this in
  let this2 := ThreadData.add_allocatedBytes_ 9999 this1 in
  let results := [([], this1); ([], this2)] in
  run true steps this w = Ok results w
  /\ Forall (fun r => fst r = []) results
  /\ run true steps this (set_config lowered w) = Ok results (set_config lowered w).
Proof.
  intros w this steps lowered this1 this2 results.
  assert (Hrun : run true steps this w = Ok results w) by reflexivity.
  assert (Hquiet : Forall (fun r : list Call * ThreadData.t => fst r = []) results)
    by (repeat constructor).
  split; [exact Hrun |]. split; [exact Hquiet |].
  refine (proj2 (calls_without_report_are_thread_local true steps this w w results
                   eq_refl _ Hrun Hquiet) (set_config lowered w)).
  repeat constructor; discriminate.
Defined.
